(** * LoanLink server: the repayment ledger and amount reconciliation

    A shallow embedding of the request handlers that touch the money fields
    of a loan application:

    - [patch_status]      PATCH  /api/applications/:id/status  (routes/applications.js)
    - [delete_application] DELETE /api/applications/:id        (routes/applications.js)
    - [get_repayments]    GET    /api/repayments/:applicationId (routes/repayments.js)
    - [post_repayment]    POST   /api/repayments/:applicationId (routes/repayments.js)
    - [create_repayment_intent] POST /api/payments/create-repayment-intent
    - [create_intent]     POST   /api/payments/create-intent    (routes/payments.js)
    - [confirm]           POST   /api/payments/confirm          (routes/payments.js)
    - [verifyToken]       the token middleware                   (middleware/auth.js)

    Modelling conventions.

    - A JavaScript number is an exact rational ([Q]); numeric results are
      compared with [==].  A field or body member that is absent
      ([undefined]) is [None].
    - [x || 0], [!x || x === 0] and [x < 0] on a possibly absent number are
      [or_zero], [falsy] and [negative].
    - Arithmetic on an absent operand is [NaN] in JavaScript.  A Number
      path of the schema does not accept [NaN]: the document fails
      validation in [save()] and the handler's [catch] answers 500.  In
      every handler below nothing returns between such an operation and
      [save()], so the run is modelled as [Fail server_error] with the
      store untouched.
    - [new Date()] is the request's clock reading [now].
    - The collection is a finite map from document ids to documents;
      [save] validates the [status] enum of the schema.

    Limits of the model, and how the statements respect them.

    - The code computes in binary floating point.  Statements about
      values are written in the expression the handler evaluates, or as
      order facts.
    - [save()] validates more than the [status] enum (required paths) and
      persists the schema defaults applied on load.  Statements about
      what is stored are conditional on the answer 200 and are given
      field by field for the fields the handler keeps or writes. *)

From Stdlib Require Import QArith Qminmax Lqa ZArith.
From stdpp Require Import base option list strings gmap.

Local Open Scope string_scope.
Local Open Scope Q_scope.

(** ** JavaScript idioms on possibly absent numbers *)

(** [!x || x === 0] *)
Definition falsy (x : option Q) : bool :=
  match x with
  | None => true
  | Some q => Qeq_bool q 0
  end.

(** [x || 0] *)
Definition or_zero (x : option Q) : Q :=
  match x with
  | None => 0
  | Some q => if Qeq_bool q 0 then 0 else q
  end.

(** [x < 0]; a comparison with [undefined] is false *)
Definition negative (x : option Q) : bool :=
  match x with
  | None => false
  | Some q => negb (Qle_bool 0 q)
  end.

(** [x || d] on strings: the empty string is falsy *)
Definition or_string (x : option string) (d : string) : string :=
  match x with
  | None => d
  | Some s => if String.eqb s "" then d else s
  end.

(** ** Data model (models/LoanApplication.js) *)

Record Repayment := mkRepayment {
  amount : Q;
  paymentDate : Z;
  transactionId : string;
  paymentMethod : string }.

Record PaymentDetails := mkPaymentDetails {
  pd_transactionId : option string;
  pd_paymentDate : Z;
  pd_amount : Q }.

Record LoanApplication := mkLoanApplication {
  userId : string;
  loanAmount : Q;
  interestRate : option Q;
  status : string;
  applicationFeeStatus : string;
  paymentDetails : option PaymentDetails;
  approvedAt : option Z;
  repaymentSchedule : option string;
  totalAmount : option Q;
  paidAmount : option Q;
  remainingAmount : option Q;
  repayments : list Repayment;
  repaymentStatus : option string }.

(** Field assignments [application.f = v]. *)

Definition set_status (v : string) (a : LoanApplication) : LoanApplication :=
  mkLoanApplication (userId a) (loanAmount a) (interestRate a) v
    (applicationFeeStatus a) (paymentDetails a) (approvedAt a)
    (repaymentSchedule a) (totalAmount a) (paidAmount a) (remainingAmount a)
    (repayments a) (repaymentStatus a).

Definition set_applicationFeeStatus (v : string) (a : LoanApplication) : LoanApplication :=
  mkLoanApplication (userId a) (loanAmount a) (interestRate a) (status a)
    v (paymentDetails a) (approvedAt a)
    (repaymentSchedule a) (totalAmount a) (paidAmount a) (remainingAmount a)
    (repayments a) (repaymentStatus a).

Definition set_paymentDetails (v : option PaymentDetails) (a : LoanApplication) : LoanApplication :=
  mkLoanApplication (userId a) (loanAmount a) (interestRate a) (status a)
    (applicationFeeStatus a) v (approvedAt a)
    (repaymentSchedule a) (totalAmount a) (paidAmount a) (remainingAmount a)
    (repayments a) (repaymentStatus a).

Definition set_approvedAt (v : option Z) (a : LoanApplication) : LoanApplication :=
  mkLoanApplication (userId a) (loanAmount a) (interestRate a) (status a)
    (applicationFeeStatus a) (paymentDetails a) v
    (repaymentSchedule a) (totalAmount a) (paidAmount a) (remainingAmount a)
    (repayments a) (repaymentStatus a).

Definition set_totalAmount (v : option Q) (a : LoanApplication) : LoanApplication :=
  mkLoanApplication (userId a) (loanAmount a) (interestRate a) (status a)
    (applicationFeeStatus a) (paymentDetails a) (approvedAt a)
    (repaymentSchedule a) v (paidAmount a) (remainingAmount a)
    (repayments a) (repaymentStatus a).

Definition set_paidAmount (v : option Q) (a : LoanApplication) : LoanApplication :=
  mkLoanApplication (userId a) (loanAmount a) (interestRate a) (status a)
    (applicationFeeStatus a) (paymentDetails a) (approvedAt a)
    (repaymentSchedule a) (totalAmount a) v (remainingAmount a)
    (repayments a) (repaymentStatus a).

Definition set_remainingAmount (v : option Q) (a : LoanApplication) : LoanApplication :=
  mkLoanApplication (userId a) (loanAmount a) (interestRate a) (status a)
    (applicationFeeStatus a) (paymentDetails a) (approvedAt a)
    (repaymentSchedule a) (totalAmount a) (paidAmount a) v
    (repayments a) (repaymentStatus a).

Definition set_repaymentStatus (v : option string) (a : LoanApplication) : LoanApplication :=
  mkLoanApplication (userId a) (loanAmount a) (interestRate a) (status a)
    (applicationFeeStatus a) (paymentDetails a) (approvedAt a)
    (repaymentSchedule a) (totalAmount a) (paidAmount a) (remainingAmount a)
    (repayments a) v.

(** [application.repayments.push(r)] *)
Definition push_repayment (r : Repayment) (a : LoanApplication) : LoanApplication :=
  mkLoanApplication (userId a) (loanAmount a) (interestRate a) (status a)
    (applicationFeeStatus a) (paymentDetails a) (approvedAt a)
    (repaymentSchedule a) (totalAmount a) (paidAmount a) (remainingAmount a)
    (repayments a ++ [r]) (repaymentStatus a).

(** ** Requests and responses *)

(** [req.user], the decoded token (middleware/auth.js, [verifyToken]). *)
Record Actor := mkActor {
  actorId : string;
  role : string }.

(** The body of [res.json].  The one message built from a template
    literal keeps its number as data. *)
Inductive message :=
  | Msg (s : string)
    (** [`Payment amount exceeds remaining balance. Maximum: $${remainingAmount.toLocaleString()}`] *)
  | MsgMaximum (remaining : Q)
    (** [error.message] of a rejected [save()] *)
  | MsgError.

Record RepaymentDetails := mkRepaymentDetails {
  rd_totalAmount : Q;
  rd_paidAmount : Q;
  rd_remainingAmount : Q;
  rd_repaymentStatus : string;
  rd_repayments : list Repayment;
  rd_repaymentSchedule : string }.

Inductive payload :=
  | Message (m : message)
  | Details (d : RepaymentDetails)
  | Recorded (total paid remaining : option Q) (rstatus : option string)
  | Confirmed (a : LoanApplication)
  | Document (a : LoanApplication)
  | ClientSecret (s : string).

Record response := mkResponse {
  code : Z;
  body : payload }.

Definition server_error : response := mkResponse 500 (Message MsgError).

(** The outcome of the part of a handler that runs on the loaded
    document: the document handed to [save()], or the response sent
    without saving. *)
Inductive result (A : Type) :=
  | Ok (a : A)
  | Fail (r : response).
Arguments Ok {A} a.
Arguments Fail {A} r.

(** ** Persistence *)

Definition status_enum : list string := ["Pending"; "Approved"; "Rejected"].

Definition valid_status (s : string) : bool :=
  bool_decide (s ∈ status_enum).

(** [await application.save()]: the schema validation, then the write. *)
Definition save (id : string) (a : LoanApplication)
    (db : gmap string LoanApplication) : option (gmap string LoanApplication) :=
  if valid_status (status a) then Some (<[id := a]> db) else None.

(** ** Authorization *)

(** [checkRole('admin', 'manager')] *)
Definition checkRole (roles : list string) (u : Actor) : bool :=
  bool_decide (role u ∈ roles).

Definition isOwner (u : Actor) (a : LoanApplication) : bool :=
  String.eqb (userId a) (actorId u).

Definition isAdminOrManager (u : Actor) : bool :=
  String.eqb (role u) "admin" || String.eqb (role u) "manager".

Definition respond (c : Z) (s : string) : response :=
  mkResponse c (Message (Msg s)).

(** ** PATCH /api/applications/:id/status (routes/applications.js 128-152) *)

(** Lines 137-145, on the loaded document. *)
Definition patch_status_doc (now : Z) (s : string) (a : LoanApplication)
    : result LoanApplication :=
  let a1 := set_status s a in
  if String.eqb s "Approved" then
    let a2 := set_approvedAt (Some now) a1 in
    match interestRate a2 with
    | None => Fail server_error
    | Some rate =>
        let interestAmount := loanAmount a2 * rate / 100 in
        let a3 := set_totalAmount (Some (loanAmount a2 + interestAmount)) a2 in
        let a4 := set_remainingAmount (totalAmount a3) a3 in
        Ok (set_repaymentStatus (Some "Pending") a4)
    end
  else Ok a1.

Definition patch_status (db : gmap string LoanApplication) (u : Actor)
    (now : Z) (id : string) (s : string)
    : gmap string LoanApplication * response :=
  if negb (checkRole ["admin"; "manager"] u) then
    (db, respond 403 "Forbidden. Insufficient permissions.")
  else
    match db !! id with
    | None => (db, respond 404 "Application not found")
    | Some a =>
        match patch_status_doc now s a with
        | Fail r => (db, r)
        | Ok a' =>
            match save id a' db with
            | Some db' => (db', mkResponse 200 (Document a'))
            | None => (db, server_error)
            end
        end
    end.

(** ** DELETE /api/applications/:id (routes/applications.js 155-176) *)

Definition delete_application (db : gmap string LoanApplication) (u : Actor)
    (id : string) : gmap string LoanApplication * response :=
  match db !! id with
  | None => (db, respond 404 "Application not found")
  | Some a =>
      if negb (String.eqb (userId a) (actorId u)) then
        (db, respond 403 "Not authorized")
      else if negb (String.eqb (status a) "Pending") then
        (db, respond 400 "Can only cancel pending applications")
      else (delete id db, respond 200 "Application cancelled successfully")
  end.

(** ** GET /api/repayments/:applicationId (routes/repayments.js 32-88) *)

(** Lines 51-66: the branch taken when [totalAmount] is absent or zero.
    The result is: was [save()] called, the document, the local
    [totalAmount]. *)
Definition backfill (a : LoanApplication) : bool * LoanApplication * Q :=
  if String.eqb (status a) "Approved" && negb (Qeq_bool (loanAmount a) 0) then
    let interestAmount := loanAmount a * or_zero (interestRate a) / 100 in
    let total := loanAmount a + interestAmount in
    if falsy (totalAmount a) then
      let a1 := set_totalAmount (Some total) a in
      let a2 := if falsy (remainingAmount a1)
                then set_remainingAmount (Some total) a1 else a1 in
      (true, a2, total)
    else (false, a, total)
  else (false, a, or_zero (Some (loanAmount a))).

(** Lines 48-67: the local [totalAmount], with the document as the
    branch leaves it and whether [save()] was called. *)
Definition local_totalAmount (a : LoanApplication)
    : bool * LoanApplication * Q :=
  match totalAmount a with
  | None => backfill a
  | Some t => if Qeq_bool t 0 then backfill a else (false, a, t)
  end.

(** Lines 69-75: the local [remainingAmount]. *)
Definition local_remainingAmount (a : LoanApplication) (total : Q) : Q :=
  let recomputed :=
    let paid := or_zero (paidAmount a) in
    let r := total - paid in
    if negb (Qle_bool 0 r) then 0 else r in
  match remainingAmount a with
  | None => recomputed
  | Some r =>
      if Qeq_bool r 0 || negb (Qle_bool 0 r) then recomputed else r
  end.

(** Lines 48-84: reconciliation on read.  The document component is the
    document as the handler leaves it (saved when the flag is set); the
    last component is the body of the answer. *)
Definition reconcile (a : LoanApplication)
    : bool * LoanApplication * RepaymentDetails :=
  let '(saved, a1, total) := local_totalAmount a in
  (saved, a1,
   mkRepaymentDetails total (or_zero (paidAmount a1))
     (local_remainingAmount a1 total)
     (or_string (repaymentStatus a1) "Pending") (repayments a1)
     (or_string (repaymentSchedule a1) "Monthly")).

Definition get_repayments (db : gmap string LoanApplication) (u : Actor)
    (id : string) : gmap string LoanApplication * response :=
  match db !! id with
  | None => (db, respond 404 "Application not found")
  | Some a =>
      if negb (isOwner u a) && negb (isAdminOrManager u) then
        (db, respond 403 "Not authorized")
      else
        let '(saved, a', d) := reconcile a in
        if saved then
          match save id a' db with
          | Some db' => (db', mkResponse 200 (Details d))
          | None => (db, server_error)
          end
        else (db, mkResponse 200 (Details d))
  end.

(** ** The ledger update
    routes/repayments.js 135-153 and routes/payments.js 158-173 are the
    same statements: push the entry, credit [paidAmount], recompute
    [remainingAmount], derive [repaymentStatus]. *)
Definition record_repayment (r : Repayment) (a : LoanApplication)
    : result LoanApplication :=
  let a1 := push_repayment r a in
  let paid := or_zero (paidAmount a1) + amount r in
  let a2 := set_paidAmount (Some paid) a1 in
  match totalAmount a2 with
  | None => Fail server_error
  | Some t =>
      let a3 := set_remainingAmount (Some (t - paid)) a2 in
      if Qle_bool (t - paid) 0 then
        Ok (set_remainingAmount (Some 0)
              (set_repaymentStatus (Some "Complete") a3))
      else Ok (set_repaymentStatus (Some "In Progress") a3)
  end.

(** ** POST /api/repayments/:applicationId (routes/repayments.js 91-169) *)

Record RepaymentBody := mkRepaymentBody {
  rb_amount : option Q;
  rb_transactionId : option string;
  rb_paymentMethod : option string }.

(** Lines 113-124: reconciliation on write, in memory. *)
Definition reconcile_write (a : LoanApplication) : LoanApplication :=
  let fresh :=
    let interestAmount := loanAmount a * or_zero (interestRate a) / 100 in
    loanAmount a + interestAmount in
  let total :=
    match totalAmount a with
    | None => fresh
    | Some t => if Qeq_bool t 0 then fresh else t
    end in
  let a1 := if falsy (totalAmount a) then set_totalAmount (Some total) a else a in
  if falsy (remainingAmount a1) || negative (remainingAmount a1) then
    let paid := or_zero (paidAmount a1) in
    let r := total - paid in
    set_remainingAmount (Some (if negb (Qle_bool 0 r) then 0 else r)) a1
  else a1.

Definition post_repayment_doc (u : Actor) (now : Z) (b : RepaymentBody)
    (a : LoanApplication) : result LoanApplication :=
  if negb (isOwner u a) && negb (isAdminOrManager u) then
    Fail (respond 403 "Not authorized")
  else if negb (String.eqb (status a) "Approved") then
    Fail (respond 400 "Loan must be approved before making repayments")
  else
    let a1 := reconcile_write a in
    match rb_amount b with
    | None => Fail (respond 400 "Invalid payment amount")
    | Some amt =>
        if Qeq_bool amt 0 || Qle_bool amt 0 then
          Fail (respond 400 "Invalid payment amount")
        else
          match remainingAmount a1 with
          | Some rem =>
              if negb (Qle_bool amt rem) then
                Fail (mkResponse 400 (Message (MsgMaximum rem)))
              else
                record_repayment
                  (mkRepayment amt now (or_string (rb_transactionId b) "")
                     (or_string (rb_paymentMethod b) "Stripe")) a1
          | None =>
              record_repayment
                (mkRepayment amt now (or_string (rb_transactionId b) "")
                   (or_string (rb_paymentMethod b) "Stripe")) a1
          end
    end.

Definition post_repayment (db : gmap string LoanApplication) (u : Actor)
    (now : Z) (id : string) (b : RepaymentBody)
    : gmap string LoanApplication * response :=
  match db !! id with
  | None => (db, respond 404 "Application not found")
  | Some a =>
      match post_repayment_doc u now b a with
      | Fail r => (db, r)
      | Ok a' =>
          match save id a' db with
          | Some db' =>
              (db', mkResponse 200
                      (Recorded (totalAmount a') (paidAmount a')
                         (remainingAmount a') (repaymentStatus a')))
          | None => (db, server_error)
          end
      end
  end.

(** ** POST /api/payments/create-repayment-intent (routes/payments.js 91-141)
    [stripe] is the configured gateway, if any; it answers a client
    secret or rejects the request. *)
Definition create_repayment_intent (stripe : option (Q -> option string))
    (db : gmap string LoanApplication) (u : Actor)
    (applicationId : option string) (amt : option Q) : response :=
  match stripe with
  | None => respond 503 "Payment service is not configured. Please contact administrator."
  | Some create =>
      match applicationId, amt with
      | Some id, Some n =>
          if String.eqb id "" || Qeq_bool n 0 then
            respond 400 "Application ID and amount are required"
          else
            match db !! id with
            | None => respond 404 "Application not found"
            | Some a =>
                if negb (String.eqb (userId a) (actorId u)) then
                  respond 403 "Not authorized"
                else if negb (String.eqb (status a) "Approved") then
                  respond 400 "Loan must be approved before making repayments"
                else if match remainingAmount a with
                        | Some rem => negb (Qle_bool n (rem * 100))
                        | None => false
                        end then
                  respond 400 "Payment amount exceeds remaining balance"
                else
                  match create n with
                  | Some secret => mkResponse 200 (ClientSecret secret)
                  | None => server_error
                  end
            end
      | _, _ => respond 400 "Application ID and amount are required"
      end
  end.

(** ** POST /api/payments/confirm (routes/payments.js 144-190) *)

Record ConfirmBody := mkConfirmBody {
  c_applicationId : string;
  c_transactionId : option string;
  c_amount : option Q;
  c_type : option string }.

(** Lines 153-182, on the loaded document. *)
Definition confirm_doc (now : Z) (b : ConfirmBody) (a : LoanApplication)
    : result LoanApplication :=
  if bool_decide (c_type b = Some "repayment") then
    match c_amount b with
    | None => Fail server_error
    | Some amt =>
        let repaymentAmount := amt / 100 in
        record_repayment
          (mkRepayment repaymentAmount now (or_string (c_transactionId b) "")
             "Stripe") a
    end
  else
    let a1 := set_applicationFeeStatus "Paid" a in
    match c_amount b with
    | None => Fail server_error
    | Some amt =>
        Ok (set_paymentDetails
              (Some (mkPaymentDetails (c_transactionId b) now (amt / 100))) a1)
    end.

(** The handler receives [req.user] from [verifyToken] and does not
    read it. *)
Definition confirm (db : gmap string LoanApplication) (u : Actor)
    (now : Z) (b : ConfirmBody) : gmap string LoanApplication * response :=
  match db !! c_applicationId b with
  | None => (db, respond 404 "Application not found")
  | Some a =>
      match confirm_doc now b a with
      | Fail r => (db, r)
      | Ok a' =>
          match save (c_applicationId b) a' db with
          | Some db' => (db', mkResponse 200 (Confirmed a'))
          | None => (db, server_error)
          end
      end
  end.

(** ** Requests as data: one step of the server on the collection *)

Inductive request :=
  | PatchStatus (u : Actor) (now : Z) (id : string) (s : string)
  | DeleteApplication (u : Actor) (id : string)
  | GetRepayments (u : Actor) (id : string)
  | PostRepayment (u : Actor) (now : Z) (id : string) (b : RepaymentBody)
  | Confirm (u : Actor) (now : Z) (b : ConfirmBody).

Definition handle (db : gmap string LoanApplication) (rq : request)
    : gmap string LoanApplication * response :=
  match rq with
  | PatchStatus u now id s => patch_status db u now id s
  | DeleteApplication u id => delete_application db u id
  | GetRepayments u id => get_repayments db u id
  | PostRepayment u now id b => post_repayment db u now id b
  | Confirm u now b => confirm db u now b
  end.

(** The collection after a sequence of requests, oldest first. *)
Fixpoint run (db : gmap string LoanApplication) (rqs : list request)
    : gmap string LoanApplication :=
  match rqs with
  | [] => db
  | rq :: rest => run (fst (handle db rq)) rest
  end.

(** ** Properties named by the specification *)

(** The principal with interest, in the expression the handlers
    evaluate: [loanAmount + loanAmount * (interestRate || 0) / 100]. *)
Definition principal_with_interest (a : LoanApplication) : Q :=
  loanAmount a + loanAmount a * or_zero (interestRate a) / 100.

(** [remainingAmount = max(0, totalAmount − paidAmount)] on a stored
    document; an absent [paidAmount] counts as nothing paid. *)
Definition remaining_canonical (a : LoanApplication) : Prop :=
  exists t r, totalAmount a = Some t /\ remainingAmount a = Some r /\
              r == Qmax 0 (t - or_zero (paidAmount a)).

(** The function the specification states for [repaymentStatus] (data
    model, invariant 5), written after its words and compared below with
    what the handlers store:
    [Complete] iff [remainingAmount = 0] and [totalAmount > 0];
    [InProgress] iff [0 < paidAmount < totalAmount]; else [Pending].
    [remainingAmount] is [max(0, totalAmount − paidAmount)]; the stored
    spelling of [InProgress] is ["In Progress"]. *)
Definition spec_repaymentStatus (paid total : Q) : string :=
  if Qeq_bool (Qmax 0 (total - paid)) 0 && negb (Qle_bool total 0) then "Complete"
  else if negb (Qle_bool paid 0) && negb (Qle_bool total paid) then "In Progress"
  else "Pending".

(** What a request may do to the terms of a loan and to [totalAmount]:
    the terms stay; [totalAmount] stays, or is assigned the principal
    with interest. *)
Definition terms_kept (a a' : LoanApplication) : Prop :=
  loanAmount a' = loanAmount a /\
  interestRate a' = interestRate a /\
  (totalAmount a' = totalAmount a \/
   exists t, totalAmount a' = Some t /\ t == principal_with_interest a).

(** Every stored document passed the schema validation of [save]. *)
Definition stored_valid (db : gmap string LoanApplication) : Prop :=
  forall id a, db !! id = Some a -> valid_status (status a) = true.

(** The ledger entries that carry a given transaction id. *)
Definition entries_with (tx : string) (a : LoanApplication) : list Repayment :=
  List.filter (fun r => String.eqb (transactionId r) tx) (repayments a).

(** The document and the reported balances of [reconcile]. *)
Definition reconciled (a : LoanApplication) : LoanApplication :=
  snd (fst (reconcile a)).

Definition reported (a : LoanApplication) : RepaymentDetails :=
  snd (reconcile a).

(** The document that lines 137-145 of routes/applications.js hand to
    [save()] when the requested status is [Approved] and [interestRate]
    is present. *)
Definition approved (now : Z) (rate : Q) (a : LoanApplication) : LoanApplication :=
  let total := loanAmount a + loanAmount a * rate / 100 in
  set_repaymentStatus (Some "Pending")
    (set_remainingAmount (Some total)
       (set_totalAmount (Some total)
          (set_approvedAt (Some now) (set_status "Approved" a)))).

(** ** Documents and actors used to exercise the handlers *)

Definition ex_id : string := "app-1".

(** A fresh application: principal 1000 at 10 percent. *)
Definition ex_pending : LoanApplication :=
  mkLoanApplication "user-1" 1000 (Some 10) "Pending" "Unpaid" None None
    (Some "Monthly") (Some 0) (Some 0) (Some 0) [] (Some "Pending").

Definition ex_rejected : LoanApplication := set_status "Rejected" ex_pending.

(** The same application after approval at time 5. *)
Definition ex_approved : LoanApplication :=
  mkLoanApplication "user-1" 1000 (Some 10) "Approved" "Unpaid" None (Some 5%Z)
    (Some "Monthly") (Some 1100) (Some 0) (Some 1100) [] (Some "Pending").

(** ... and after a repayment of 600. *)
Definition ex_part_paid : LoanApplication :=
  mkLoanApplication "user-1" 1000 (Some 10) "Approved" "Unpaid" None (Some 5%Z)
    (Some "Monthly") (Some 1100) (Some 600) (Some 500)
    [mkRepayment 600 6 "tx-0" "Stripe"] (Some "In Progress").

(** An approved application from before the balance fields existed, on
    which 300 has been credited. *)
Definition ex_legacy : LoanApplication :=
  mkLoanApplication "user-1" 1000 (Some 10) "Approved" "Unpaid" None None
    None (Some 0) (Some 300) (Some 0)
    [mkRepayment 300 3 "tx-0" "Stripe"] (Some "Complete").

Definition ex_db (a : LoanApplication) : gmap string LoanApplication :=
  {[ ex_id := a ]}.

Definition ex_owner : Actor := mkActor "user-1" "borrower".
Definition ex_stranger : Actor := mkActor "user-2" "borrower".
Definition ex_admin : Actor := mkActor "user-9" "admin".

(** A gateway confirmation of 100.00 (10000 cents). *)
Definition ex_confirm : ConfirmBody :=
  mkConfirmBody ex_id (Some "tx-1") (Some 10000) (Some "repayment").

(** ** POST /api/payments/create-intent (routes/payments.js 41-88)
    The intent for the application fee; the amount is the constant 1000
    (cents). *)
Definition create_intent (stripe : option (Q -> option string))
    (db : gmap string LoanApplication) (u : Actor)
    (applicationId : option string) : response :=
  match stripe with
  | None => respond 503 "Payment service is not configured. Please contact administrator."
  | Some create =>
      match applicationId with
      | None => respond 400 "Application ID is required"
      | Some id =>
          if String.eqb id "" then respond 400 "Application ID is required"
          else
            match db !! id with
            | None => respond 404 "Application not found"
            | Some a =>
                if negb (String.eqb (userId a) (actorId u)) then
                  respond 403 "Not authorized to pay for this application"
                else if String.eqb (applicationFeeStatus a) "Paid" then
                  respond 400 "Application fee has already been paid"
                else
                  match create 1000 with
                  | Some secret => mkResponse 200 (ClientSecret secret)
                  | None => server_error
                  end
            end
      end
  end.

(** ** The token middleware (middleware/auth.js) *)

(** [s.split(sep)] for a one-character separator. *)
Fixpoint split (sep : Ascii.ascii) (s : string) : list string :=
  match s with
  | EmptyString => [EmptyString]
  | String c rest =>
      if Ascii.eqb c sep then EmptyString :: split sep rest
      else match split sep rest with
           | piece :: pieces => String c piece :: pieces
           | [] => [String c EmptyString]
           end
  end.

(** What the middleware reads of the request: [req.cookies.token] and
    [req.headers.authorization]. *)
Record Credentials := mkCredentials {
  cookie_token : option string;
  authorization : option string }.

(** [req.headers.authorization?.split(' ')[1]] *)
Definition header_token (h : Credentials) : option string :=
  match authorization h with
  | None => None
  | Some v => nth_error (split Ascii.Space v) 1
  end.

(** [req.cookies.token || req.headers.authorization?.split(' ')[1]] *)
Definition request_token (h : Credentials) : option string :=
  match cookie_token h with
  | None => header_token h
  | Some t => if String.eqb t "" then header_token h else Some t
  end.

(** The outcome of [jwt.verify]: the decoded payload, or the error it
    throws, by [error.name]. *)
Inductive jwt_result :=
  | Decoded (u : Actor)
  | TokenExpiredError
  | JsonWebTokenError
  | OtherError.

(** The body of a 401 or 403 sent by the middleware. *)
Record Denial := mkDenial {
  d_status : Z;
  d_message : string;
  d_code : option string }.

(** [verifyToken]: [inr u] is [next()] with [req.user = u]. *)
Definition verifyToken (verify : string -> jwt_result) (h : Credentials)
    : Denial + Actor :=
  match request_token h with
  | None => inl (mkDenial 401 "Access denied. No token provided." None)
  | Some token =>
      if String.eqb token "" then
        inl (mkDenial 401 "Access denied. No token provided." None)
      else
        match verify token with
        | Decoded u => inr u
        | TokenExpiredError =>
            inl (mkDenial 401 "Token expired. Please login again."
                   (Some "TOKEN_EXPIRED"))
        | JsonWebTokenError =>
            inl (mkDenial 401 "Invalid token." (Some "INVALID_TOKEN"))
        | OtherError => inl (mkDenial 401 "Invalid token." None)
        end
  end.

(** [checkRole(...roles)] as the middleware: [None] is [next()]. *)
Definition checkRole_middleware (roles : list string) (user : option Actor)
    : option Denial :=
  match user with
  | None => Some (mkDenial 401 "Unauthorized" None)
  | Some u =>
      if negb (checkRole roles u) then
        Some (mkDenial 403 "Forbidden. Insufficient permissions." None)
      else None
  end.

(** ** Vocabulary for the properties of request sequences *)

(** The document a request addresses. *)
Definition target (rq : request) : string :=
  match rq with
  | PatchStatus _ _ id _ => id
  | DeleteApplication _ id => id
  | GetRepayments _ id => id
  | PostRepayment _ _ id _ => id
  | Confirm _ _ b => c_applicationId b
  end.

(** The documents the handlers hand to [save()]. *)
Inductive doc_step (a : LoanApplication) : LoanApplication -> Prop :=
  | step_status now s a' :
      patch_status_doc now s a = Ok a' -> doc_step a a'
  | step_backfill :
      fst (fst (reconcile a)) = true -> doc_step a (reconciled a)
  | step_repayment u now b a' :
      post_repayment_doc u now b a = Ok a' -> doc_step a a'
  | step_confirm now b a' :
      confirm_doc now b a = Ok a' -> doc_step a a'.

(** What a handler may do to owner, ledger and [paidAmount]: nothing,
    or append one entry and credit its amount. *)
Definition ledger_kept (a a' : LoanApplication) : Prop :=
  userId a' = userId a /\
  ((repayments a' = repayments a /\ paidAmount a' = paidAmount a) \/
   exists r, repayments a' = (repayments a ++ [r])%list /\
             paidAmount a' = Some (or_zero (paidAmount a) + amount r)).

(** A string without a space character. *)
Fixpoint space_free (s : string) : bool :=
  match s with
  | EmptyString => true
  | String c rest => negb (Ascii.eqb c Ascii.Space) && space_free rest
  end.

(** A manual repayment of 600, and the application once it is paid off. *)
Definition ex_repay_600 : RepaymentBody := mkRepaymentBody (Some 600) None None.

Definition ex_paid_off : LoanApplication :=
  mkLoanApplication "user-1" 1000 (Some 10) "Approved" "Unpaid" None (Some 5%Z)
    (Some "Monthly") (Some 1100) (Some 1100) (Some 0)
    [mkRepayment 1100 6 "tx-0" "Stripe"] (Some "Complete").

(** ** Basic facts *)

Lemma Qle_bool_false (x y : Q) : Qle_bool x y = false <-> y < x.
Proof.
  split; intros H.
  - apply Qnot_le_lt. intros Hle. apply Qle_bool_iff in Hle. congruence.
  - destruct (Qle_bool x y) eqn:E; [|reflexivity].
    apply Qle_bool_iff in E. exfalso. apply (Qlt_not_le _ _ H E).
Qed.

Lemma Qeq_bool_false (x y : Q) : Qeq_bool x y = false <-> ~ x == y.
Proof.
  split; intros H.
  - now apply Qeq_bool_neq.
  - destruct (Qeq_bool x y) eqn:E; [|reflexivity].
    apply Qeq_bool_iff in E. contradiction.
Qed.

Lemma or_zero_Some (q : Q) : or_zero (Some q) == q.
Proof.
  simpl. destruct (Qeq_bool q 0) eqn:E; [|reflexivity].
  apply Qeq_bool_iff in E. now rewrite E.
Qed.

Lemma falsy_false (x : option Q) :
  falsy x = false -> exists q, x = Some q /\ ~ q == 0.
Proof.
  destruct x as [q|]; simpl; [|discriminate].
  intros H. exists q. split; [reflexivity|]. now apply Qeq_bool_false.
Qed.

Lemma save_Some id a db :
  valid_status (status a) = true -> save id a db = Some (<[id := a]> db).
Proof. unfold save. now intros ->. Qed.

Lemma save_inv id a db db' :
  save id a db = Some db' ->
  valid_status (status a) = true /\ db' = <[id := a]> db.
Proof.
  unfold save. destruct (valid_status (status a)); [|discriminate].
  intros [= <-]. split; reflexivity.
Qed.

(** What [record_repayment] leaves in the document when it succeeds. *)
Lemma record_repayment_inv r a a' :
  record_repayment r a = Ok a' ->
  exists t,
    totalAmount a = Some t /\
    totalAmount a' = Some t /\
    loanAmount a' = loanAmount a /\
    interestRate a' = interestRate a /\
    status a' = status a /\
    userId a' = userId a /\
    repayments a' = (repayments a ++ [r])%list /\
    paidAmount a' = Some (or_zero (paidAmount a) + amount r) /\
    remainingAmount a' =
      Some (if Qle_bool (t - (or_zero (paidAmount a) + amount r)) 0
            then 0 else t - (or_zero (paidAmount a) + amount r)) /\
    repaymentStatus a' =
      Some (if Qle_bool (t - (or_zero (paidAmount a) + amount r)) 0
            then "Complete" else "In Progress").
Proof.
  unfold record_repayment. simpl.
  destruct (totalAmount a) as [t|] eqn:Et; [|discriminate].
  intros H. exists t.
  destruct (Qle_bool (t - (or_zero (paidAmount a) + amount r)) 0) eqn:E;
    injection H as <-; simpl; rewrite ?Et; repeat split; reflexivity.
Qed.

Lemma record_repayment_Ok r a t :
  totalAmount a = Some t -> exists a', record_repayment r a = Ok a'.
Proof.
  intros Et. unfold record_repayment. simpl. rewrite Et.
  destruct (Qle_bool _ 0); eauto.
Qed.

(** ** Reconciliation (routes/repayments.js 48-84 and 113-124) *)

Ltac js_simpl :=
  cbn -[Qeq_bool Qle_bool Qplus Qmult Qdiv Qminus Qmax String.eqb or_zero] in *.

Lemma reconcile_triple (a : LoanApplication) :
  reconcile a = (fst (fst (reconcile a)), reconciled a, reported a).
Proof. unfold reconciled, reported. now destruct (reconcile a) as [[s d] v]. Qed.

Lemma backfill_twice (a : LoanApplication) :
  falsy (totalAmount a) = true ->
  forall s a1 t, backfill a = (s, a1, t) ->
  exists s', local_totalAmount a1 = (s', a1, t).
Proof.
  intros Hf s a1 t. unfold backfill. rewrite Hf.
  destruct (String.eqb (status a) "Approved" && negb (Qeq_bool (loanAmount a) 0)) eqn:Ec.
  - set (T := loanAmount a + loanAmount a * or_zero (interestRate a) / 100).
    intros [= <- <- <-]. unfold local_totalAmount.
    destruct a as [uid loan rate st fee pd appr sched tot paid rem reps rst].
    js_simpl. fold T.
    destruct (falsy rem) eqn:Er; js_simpl.
    + destruct (Qeq_bool T 0) eqn:Et; [|eauto].
      unfold backfill. js_simpl. rewrite Ec. fold T. js_simpl.
      rewrite ?Et. js_simpl. eauto.
    + destruct (Qeq_bool T 0) eqn:Et; [|eauto].
      unfold backfill. js_simpl. rewrite Ec. fold T. js_simpl.
      rewrite ?Et, ?Er. eauto.
  - intros [= <- <- <-]. unfold local_totalAmount.
    destruct (totalAmount a) as [q|] eqn:Eq; js_simpl.
    + rewrite Hf. unfold backfill. rewrite Ec. eauto.
    + unfold backfill. rewrite Ec. eauto.
Qed.

Lemma local_totalAmount_twice (a : LoanApplication) :
  forall s a1 t, local_totalAmount a = (s, a1, t) ->
  exists s', local_totalAmount a1 = (s', a1, t).
Proof.
  intros s a1 t H.
  destruct (falsy (totalAmount a)) eqn:Hf.
  - apply (backfill_twice a Hf s). revert H. unfold local_totalAmount.
    destruct (totalAmount a) as [q|]; js_simpl; [now rewrite Hf|trivial].
  - revert H. unfold local_totalAmount.
    destruct (totalAmount a) as [q|] eqn:Eq; js_simpl; [|discriminate].
    rewrite Hf. intros [= <- <- <-]. rewrite Eq, Hf. eauto.
Qed.

Lemma reconcile_twice (a : LoanApplication) :
  reconciled (reconciled a) = reconciled a /\
  reported (reconciled a) = reported a.
Proof.
  unfold reported, reconciled, reconcile.
  destruct (local_totalAmount a) as [[s a1] t] eqn:E1.
  destruct (local_totalAmount_twice a s a1 t E1) as [s' E2].
  js_simpl. rewrite E2. split; reflexivity.
Qed.

Lemma reconcile_canonical (a : LoanApplication) :
  falsy (totalAmount a) = false ->
  fst (fst (reconcile a)) = false /\ reconciled a = a.
Proof.
  intros H. unfold reconciled, reconcile, local_totalAmount.
  destruct (totalAmount a) as [t|]; simpl in H; [|discriminate].
  rewrite H. simpl. split; reflexivity.
Qed.

Lemma reconcile_write_twice (a : LoanApplication) :
  reconcile_write (reconcile_write a) = reconcile_write a.
Proof.
  unfold reconcile_write.
  destruct a as [uid loan rate st fee pd appr sched tot paid rem reps rst].
  js_simpl.
  set (T := loan + loan * or_zero rate / 100).
  destruct tot as [t|]; [destruct (Qeq_bool t 0) eqn:Et|];
    js_simpl; rewrite ?Et; js_simpl.
  all: destruct (falsy rem || negative rem) eqn:Er;
    js_simpl; rewrite ?Et; js_simpl.
  all: try (destruct (Qeq_bool T 0) eqn:ET; js_simpl).
  all: rewrite ?Er; try reflexivity.
  all: match goal with
       | |- (if ?c then _ else _) = _ => destruct c
       end; reflexivity.
Qed.

(** The read path saves only documents whose status is [Approved], and
    leaves owner and status as they were. *)
Lemma reconcile_saved (a : LoanApplication) :
  fst (fst (reconcile a)) = true -> status a = "Approved".
Proof.
  unfold reconcile, local_totalAmount, backfill.
  destruct (String.eqb (status a) "Approved") eqn:Es.
  - intros _. now apply String.eqb_eq.
  - js_simpl. destruct (totalAmount a) as [t|]; [destruct (Qeq_bool t 0)|];
      js_simpl; discriminate.
Qed.

Lemma reconciled_owner_status (a : LoanApplication) :
  userId (reconciled a) = userId a /\ status (reconciled a) = status a.
Proof.
  unfold reconciled, reconcile, local_totalAmount, backfill.
  destruct a as [uid loan rate st fee pd appr sched tot paid rem reps rst].
  js_simpl.
  destruct tot as [t|]; js_simpl;
    repeat match goal with
           | |- context [if ?c then _ else _] => destruct c; js_simpl
           end; split; reflexivity.
Qed.

(** A second GET of the same document leaves the collection as the
    first one left it and answers the same. *)
Lemma get_repayments_twice db u id :
  get_repayments (fst (get_repayments db u id)) u id =
  (fst (get_repayments db u id), snd (get_repayments db u id)).
Proof.
  unfold get_repayments.
  destruct (db !! id) as [a|] eqn:Ea; js_simpl; [|now rewrite Ea].
  destruct (negb (isOwner u a) && negb (isAdminOrManager u)) eqn:Eauth;
    js_simpl; [now rewrite Ea, Eauth|].
  rewrite (reconcile_triple a).
  destruct (fst (fst (reconcile a))) eqn:Es; js_simpl.
  - pose proof (reconcile_saved a Es) as Hst.
    destruct (reconciled_owner_status a) as [Hu Hs].
    assert (Hv : valid_status (status (reconciled a)) = true)
      by (rewrite Hs, Hst; reflexivity).
    rewrite (save_Some _ _ _ Hv). js_simpl.
    rewrite lookup_insert_eq.
    replace (isOwner u (reconciled a)) with (isOwner u a)
      by (unfold isOwner; now rewrite Hu).
    rewrite Eauth, (reconcile_triple (reconciled a)).
    destruct (reconcile_twice a) as [-> ->].
    destruct (fst (fst (reconcile (reconciled a)))); js_simpl;
      [|reflexivity].
    rewrite (save_Some _ _ _ Hv). now rewrite insert_insert_eq.
  - rewrite Ea, Eauth, (reconcile_triple a), Es. reflexivity.
Qed.

(** C9. Reconciliation is idempotent.  On read: reconciling the
    reconciled document yields the same document and the same reported
    balances; on write: the in-memory reconciliation applied twice equals
    it applied once; over the collection: a second GET of the same
    document changes nothing and answers the same.  And on a document
    whose [totalAmount] is present and nonzero the read path changes no
    field and does not save. *)
Theorem reconcile_idempotent (a : LoanApplication) :
  reconciled (reconciled a) = reconciled a /\
  reported (reconciled a) = reported a /\
  reconcile_write (reconcile_write a) = reconcile_write a /\
  (forall db u id,
     get_repayments (fst (get_repayments db u id)) u id =
     (fst (get_repayments db u id), snd (get_repayments db u id))) /\
  (falsy (totalAmount a) = false ->
   reconcile a = (false, a, reported a)).
Proof.
  destruct (reconcile_twice a) as [H1 H2].
  repeat split; auto using reconcile_write_twice, get_repayments_twice.
  intros Hf. destruct (reconcile_canonical a Hf) as [Hs Ha].
  rewrite (reconcile_triple a), Hs, Ha. reflexivity.
Qed.

Lemma reconcile_idempotent_witness :
  reconcile ex_approved = (false, ex_approved, reported ex_approved).
Proof.
  apply (proj2 (proj2 (proj2 (proj2 (reconcile_idempotent ex_approved))))).
  reflexivity.
Defined.

(** ** The manual repayment (routes/repayments.js 91-169) *)

Lemma post_repayment_failure_unchanged db u now id b db' r :
  post_repayment db u now id b = (db', r) -> code r <> 200%Z -> db' = db.
Proof.
  unfold post_repayment.
  destruct (db !! id) as [a|]; [|now intros [= <- <-]].
  destruct (post_repayment_doc u now b a) as [a'|r']; [|now intros [= <- <-]].
  destruct (save id a' db) as [db''|]; [|now intros [= <- <-]].
  intros [= <- <-] H. now elim H.
Qed.

Lemma reconcile_write_remaining (a : LoanApplication) :
  exists rem, remainingAmount (reconcile_write a) = Some rem.
Proof.
  unfold reconcile_write.
  destruct (falsy (totalAmount a)); js_simpl.
  - destruct (falsy (remainingAmount a) || negative (remainingAmount a)) eqn:E; js_simpl; eauto.
    destruct (remainingAmount a); eauto. discriminate.
  - destruct (falsy (remainingAmount a) || negative (remainingAmount a)) eqn:E; js_simpl; eauto.
    destruct (remainingAmount a); eauto. discriminate.
Qed.

(** C5. The manual repayment checks its preconditions in order, the first
    failure wins, and a failure leaves the collection as it was.  For an
    actor allowed on the application: a status other than [Approved] is
    answered 400 "Loan must be approved before making repayments"
    (InvalidState) whatever the amount; on an approved application an
    absent or non-positive amount is answered 400 "Invalid payment amount"
    (InvalidAmount) whatever the balance; a positive amount above the
    reconciled [remainingAmount] is answered 400 with the message that
    states that remaining balance as the maximum; and every answer other
    than 200 comes with the collection unchanged. *)
Theorem post_repayment_preconditions db u now id b a :
  db !! id = Some a ->
  negb (isOwner u a) && negb (isAdminOrManager u) = false ->
  (status a <> "Approved" ->
   post_repayment db u now id b =
   (db, respond 400 "Loan must be approved before making repayments")) /\
  (status a = "Approved" ->
   (forall q, rb_amount b = Some q -> q <= 0) ->
   post_repayment db u now id b = (db, respond 400 "Invalid payment amount")) /\
  (status a = "Approved" ->
   forall q, rb_amount b = Some q -> 0 < q ->
   exists rem, remainingAmount (reconcile_write a) = Some rem /\
     (rem < q ->
      post_repayment db u now id b =
      (db, mkResponse 400 (Message (MsgMaximum rem))))) /\
  (forall db' r,
     post_repayment db u now id b = (db', r) -> code r <> 200%Z -> db' = db).
Proof.
  intros Ha Hauth. repeat split.
  - intros Hs. unfold post_repayment, post_repayment_doc. rewrite Ha, Hauth.
    apply String.eqb_neq in Hs. now rewrite Hs.
  - intros Hs Hq. unfold post_repayment, post_repayment_doc. rewrite Ha, Hauth.
    apply String.eqb_eq in Hs. rewrite Hs. js_simpl.
    destruct (rb_amount b) as [q|]; [|reflexivity].
    assert (Hle : Qle_bool q 0 = true) by (apply Qle_bool_iff; auto).
    rewrite Hle, orb_true_r. reflexivity.
  - intros Hs q Hq Hpos.
    destruct (reconcile_write_remaining a) as [rem Hrem]. exists rem.
    split; [exact Hrem|]. intros Hlt.
    unfold post_repayment, post_repayment_doc. rewrite Ha, Hauth.
    apply String.eqb_eq in Hs. rewrite Hs. js_simpl. rewrite Hq.
    assert (H0 : Qeq_bool q 0 = false) by (apply Qeq_bool_false; lra).
    assert (H1 : Qle_bool q 0 = false) by (now apply Qle_bool_false).
    assert (H2 : Qle_bool q rem = false) by (now apply Qle_bool_false).
    rewrite H0, H1, Hrem, H2. reflexivity.
  - apply post_repayment_failure_unchanged.
Qed.

Lemma post_repayment_preconditions_witness :
  post_repayment (ex_db ex_pending) ex_owner 7 ex_id
    (mkRepaymentBody (Some 50) None None) =
    (ex_db ex_pending,
     respond 400 "Loan must be approved before making repayments") /\
  post_repayment (ex_db ex_approved) ex_owner 7 ex_id
    (mkRepaymentBody (Some (-5)) None None) =
    (ex_db ex_approved, respond 400 "Invalid payment amount") /\
  post_repayment (ex_db ex_approved) ex_owner 7 ex_id
    (mkRepaymentBody (Some 1200) None None) =
    (ex_db ex_approved, mkResponse 400 (Message (MsgMaximum 1100))).
Proof.
  split; [|split].
  - apply (post_repayment_preconditions (ex_db ex_pending) ex_owner 7 ex_id
             (mkRepaymentBody (Some 50) None None) ex_pending);
      [reflexivity | reflexivity | discriminate].
  - apply (post_repayment_preconditions (ex_db ex_approved) ex_owner 7 ex_id
             (mkRepaymentBody (Some (-5)) None None) ex_approved);
      [reflexivity | reflexivity | reflexivity |].
    intros q [= <-]. discriminate.
  - destruct (proj1 (proj2 (proj2
        (post_repayment_preconditions (ex_db ex_approved) ex_owner 7 ex_id
           (mkRepaymentBody (Some 1200) None None) ex_approved
           eq_refl eq_refl))) eq_refl 1200 eq_refl eq_refl)
      as [rem [Hrem H]].
    injection Hrem as <-. apply H. reflexivity.
Defined.

(** C10, counterexample.  A confirmation of the application fee whose
    body has no [amount], on a stored application whose fee is unpaid:
    the answer is 500 and the collection is as it was, so
    [applicationFeeStatus] is still ["Unpaid"] and no payment details are
    stored. *)
Lemma confirm_fee_without_amount :
  confirm (ex_db ex_pending) ex_owner 3
    (mkConfirmBody ex_id (Some "tx-fee") None None) =
    (ex_db ex_pending, server_error) /\
  code server_error = 500%Z /\
  applicationFeeStatus ex_pending = "Unpaid" /\
  paymentDetails ex_pending = None.
Proof.
  split; [|repeat split].
  unfold confirm, confirm_doc. js_simpl.
  rewrite (lookup_singleton_eq ex_id ex_pending : ex_db ex_pending !! ex_id = _).
  reflexivity.
Qed.

(** C10, as amended.  For a confirmation whose [type] is anything but
    the string ["repayment"] (absent included) and whose body carries a
    number as [amount], the handler sets [applicationFeeStatus] to
    ["Paid"] and [paymentDetails] to the supplied transaction id, the
    request time and [amount / 100] on the document it hands to
    [save()]: whatever the fee status and the payment details were
    before, and for every value of the amount (zero and negative
    included).  Every such confirmation that is answered 200 carried an
    amount and has stored these values.  A confirmation without an
    amount is never answered 200 and stores nothing. *)
Theorem confirm_fee_with_amount :
  (forall now id tx amt ty a,
     ty <> Some "repayment" ->
     exists a',
       confirm_doc now (mkConfirmBody id tx (Some amt) ty) a = Ok a' /\
       applicationFeeStatus a' = "Paid" /\
       paymentDetails a' = Some (mkPaymentDetails tx now (amt / 100))) /\
  (forall db u now b db' r,
     c_type b <> Some "repayment" ->
     confirm db u now b = (db', r) -> code r = 200%Z ->
     exists a a' amt,
       db !! c_applicationId b = Some a /\
       c_amount b = Some amt /\
       db' !! c_applicationId b = Some a' /\
       applicationFeeStatus a' = "Paid" /\
       paymentDetails a' =
         Some (mkPaymentDetails (c_transactionId b) now (amt / 100))) /\
  (forall db u now b,
     c_amount b = None ->
     fst (confirm db u now b) = db /\
     code (snd (confirm db u now b)) <> 200%Z).
Proof.
  split; [|split].
  - intros now id tx amt ty a Hty. eexists. unfold confirm_doc. js_simpl.
    rewrite bool_decide_eq_false_2 by exact Hty.
    split; [reflexivity|]. split; reflexivity.
  - intros db u now b db' r Hty. unfold confirm, confirm_doc.
    destruct (db !! c_applicationId b) as [a|];
      [|intros [= <- <-]; discriminate].
    rewrite bool_decide_eq_false_2 by exact Hty. js_simpl.
    destruct (c_amount b) as [amt|]; [|intros [= <- <-]; discriminate].
    destruct (save _ _ db) as [db''|] eqn:Es;
      [|intros [= <- <-]; discriminate].
    apply save_inv in Es as [_ ->]. intros [= <- <-] _.
    exists a. eexists. exists amt. split; [reflexivity|].
    split; [reflexivity|]. split; [apply lookup_insert_eq|].
    split; reflexivity.
  - intros db u now b Hamt. unfold confirm, confirm_doc.
    destruct (db !! c_applicationId b) as [a|];
      [|split; [reflexivity|discriminate]].
    rewrite Hamt. js_simpl.
    case_bool_decide; split; try reflexivity; discriminate.
Qed.

Lemma ex_fee_again :
  confirm (ex_db (set_applicationFeeStatus "Paid" ex_approved)) ex_stranger 9
    (mkConfirmBody ex_id None (Some (-700)) None) =
  (<[ex_id := set_paymentDetails (Some (mkPaymentDetails None 9 (-700 / 100)))
                (set_applicationFeeStatus "Paid" ex_approved)]>
     (ex_db (set_applicationFeeStatus "Paid" ex_approved)),
   mkResponse 200
     (Confirmed (set_paymentDetails
                   (Some (mkPaymentDetails None 9 (-700 / 100)))
                   (set_applicationFeeStatus "Paid" ex_approved)))).
Proof.
  unfold confirm, confirm_doc. js_simpl.
  rewrite (lookup_singleton_eq ex_id (set_applicationFeeStatus "Paid" ex_approved)
             : ex_db (set_applicationFeeStatus "Paid" ex_approved) !! ex_id = _).
  reflexivity.
Qed.

Lemma confirm_fee_with_amount_witness :
  (exists a',
     confirm_doc 9 (mkConfirmBody ex_id None (Some (-700)) None)
       (set_applicationFeeStatus "Paid" ex_approved) = Ok a' /\
     applicationFeeStatus a' = "Paid" /\
     paymentDetails a' = Some (mkPaymentDetails None 9 (-700 / 100))) /\
  (exists a a' amt,
     ex_db (set_applicationFeeStatus "Paid" ex_approved) !! ex_id = Some a /\
     Some (-700) = Some amt /\
     <[ex_id := set_paymentDetails
                  (Some (mkPaymentDetails None 9 (-700 / 100)))
                  (set_applicationFeeStatus "Paid" ex_approved)]>
       (ex_db (set_applicationFeeStatus "Paid" ex_approved)) !! ex_id
       = Some a' /\
     applicationFeeStatus a' = "Paid" /\
     paymentDetails a' = Some (mkPaymentDetails None 9 (amt / 100))) /\
  fst (confirm (ex_db ex_pending) ex_owner 3
         (mkConfirmBody ex_id (Some "tx-fee") None None)) = ex_db ex_pending.
Proof.
  destruct confirm_fee_with_amount as (Hdoc & Hstored & Hnone).
  split; [|split].
  - apply (Hdoc 9%Z ex_id None (-700) None
             (set_applicationFeeStatus "Paid" ex_approved)).
    discriminate.
  - apply (Hstored (ex_db (set_applicationFeeStatus "Paid" ex_approved))
             ex_stranger 9%Z (mkConfirmBody ex_id None (Some (-700)) None)
             _ _ (fun H => ltac:(discriminate H)) ex_fee_again eq_refl).
  - apply (Hnone (ex_db ex_pending) ex_owner 3%Z
             (mkConfirmBody ex_id (Some "tx-fee") None None) eq_refl).
Defined.

(** ** The gateway confirmation (routes/payments.js 144-190) *)

Lemma confirm_repayment_inv db u now b db' r :
  c_type b = Some "repayment" ->
  confirm db u now b = (db', r) -> code r = 200%Z ->
  exists a a' amt,
    db !! c_applicationId b = Some a /\
    c_amount b = Some amt /\
    record_repayment
      (mkRepayment (amt / 100) now (or_string (c_transactionId b) "") "Stripe")
      a = Ok a' /\
    db' = <[c_applicationId b := a']> db /\
    r = mkResponse 200 (Confirmed a').
Proof.
  intros Hty. unfold confirm, confirm_doc.
  destruct (db !! c_applicationId b) as [a|]; [|intros [= <- <-]; discriminate].
  rewrite bool_decide_eq_true_2 by exact Hty.
  destruct (c_amount b) as [amt|]; [|intros [= <- <-]; discriminate].
  destruct (record_repayment _ a) as [a'|r'] eqn:Er.
  - destruct (save _ a' db) as [db''|] eqn:Es; [|intros [= <- <-]; discriminate].
    apply save_inv in Es as [_ ->]. intros [= <- <-] _.
    exists a, a', amt. repeat split; auto.
  - revert Er. unfold record_repayment. js_simpl.
    destruct (totalAmount a); [destruct (Qle_bool _ 0); discriminate|].
    intros [= <-] [= <- <-]. discriminate.
Qed.

Lemma confirm_repayment_ok db u now id tx amt a t :
  db !! id = Some a ->
  valid_status (status a) = true ->
  totalAmount a = Some t ->
  exists a',
    record_repayment (mkRepayment (amt / 100) now (or_string tx "") "Stripe") a
      = Ok a' /\
    confirm db u now (mkConfirmBody id tx (Some amt) (Some "repayment")) =
      (<[id := a']> db, mkResponse 200 (Confirmed a')).
Proof.
  intros Ha Hv Ht.
  destruct (record_repayment_Ok
              (mkRepayment (amt / 100) now (or_string tx "") "Stripe") a t Ht)
    as [a' Hr].
  exists a'. split; [exact Hr|].
  unfold confirm, confirm_doc. js_simpl. rewrite Ha.
  rewrite bool_decide_eq_true_2 by reflexivity. rewrite Hr.
  apply record_repayment_inv in Hr as (t' & _ & _ & _ & _ & Hs & _).
  rewrite save_Some by (now rewrite Hs). reflexivity.
Qed.

(** C1, counterexample.  An approved application with nothing paid
    receives the same confirmation (transaction ["tx-1"], 10000 cents)
    twice, the second time on the collection the first one left: both
    are answered 200; after the first the ledger holds one entry for
    ["tx-1"] and [paidAmount] is 100; after the second it holds two such
    entries and [paidAmount] is 200. *)
Lemma confirm_replay_applies_twice :
  exists a1 a2 p1 p2,
    confirm (ex_db ex_approved) ex_owner 7 ex_confirm =
      (<[ex_id := a1]> (ex_db ex_approved), mkResponse 200 (Confirmed a1)) /\
    confirm (<[ex_id := a1]> (ex_db ex_approved)) ex_owner 8 ex_confirm =
      (<[ex_id := a2]> (<[ex_id := a1]> (ex_db ex_approved)),
       mkResponse 200 (Confirmed a2)) /\
    length (entries_with "tx-1" a1) = 1%nat /\
    length (entries_with "tx-1" a2) = 2%nat /\
    paidAmount a1 = Some p1 /\ p1 == 100 /\
    paidAmount a2 = Some p2 /\ p2 == 200.
Proof.
  destruct (confirm_repayment_ok (ex_db ex_approved) ex_owner 7 ex_id
              (Some "tx-1") 10000 ex_approved 1100
              (lookup_singleton_eq _ _) eq_refl eq_refl) as [a1 [Hr1 Hc1]].
  vm_compute in Hr1. injection Hr1 as <-.
  match type of Hc1 with
  | _ = (<[_ := ?a]> _, _) => set (a1 := a) in *
  end.
  destruct (confirm_repayment_ok (<[ex_id := a1]> (ex_db ex_approved)) ex_owner
              8 ex_id (Some "tx-1") 10000 a1 1100
              (lookup_insert_eq _ _ _) eq_refl eq_refl) as [a2 [Hr2 Hc2]].
  vm_compute in Hr2. injection Hr2 as <-.
  match type of Hc2 with
  | _ = (<[_ := ?a]> _, _) => set (a2 := a) in *
  end.
  exists a1, a2. do 2 eexists.
  split; [exact Hc1|]. split; [exact Hc2|].
  repeat split; reflexivity.
Qed.

(** C1, as amended.  A confirmation with [type = "repayment"] appends
    one entry and credits [paidAmount] by [amount / 100] every time it is
    invoked; the transaction ids already in [repayments] are not
    consulted.  Invoked twice with the same transaction id and amount (by
    any actors, at any times) on a stored application with a
    [totalAmount], it appends two entries that carry that id and credits
    [paidAmount] twice. *)
Theorem confirm_applies_every_time db u1 u2 n1 n2 id tx amt a t :
  db !! id = Some a ->
  valid_status (status a) = true ->
  totalAmount a = Some t ->
  let b := mkConfirmBody id tx (Some amt) (Some "repayment") in
  let r1 := mkRepayment (amt / 100) n1 (or_string tx "") "Stripe" in
  let r2 := mkRepayment (amt / 100) n2 (or_string tx "") "Stripe" in
  let db1 := fst (confirm db u1 n1 b) in
  let db2 := fst (confirm db1 u2 n2 b) in
  exists a1 a2 p1 p2,
    db1 !! id = Some a1 /\ db2 !! id = Some a2 /\
    repayments a1 = (repayments a ++ [r1])%list /\
    repayments a2 = (repayments a ++ [r1; r2])%list /\
    paidAmount a1 = Some p1 /\ p1 == or_zero (paidAmount a) + amt / 100 /\
    paidAmount a2 = Some p2 /\
    p2 == or_zero (paidAmount a) + amt / 100 + amt / 100 /\
    length (entries_with (or_string tx "") a2) =
      (2 + length (entries_with (or_string tx "") a))%nat.
Proof.
  intros Ha Hv Ht b r1 r2 db1 db2.
  destruct (confirm_repayment_ok db u1 n1 id tx amt a t Ha Hv Ht) as [a1 [Hr1 Hc1]].
  pose proof (record_repayment_inv _ _ _ Hr1)
    as (t1 & Et & Ht1 & _ & _ & Hs1 & _ & Hreps1 & Hp1 & _).
  assert (Hdb1 : db1 = <[id := a1]> db) by (unfold db1, b; now rewrite Hc1).
  assert (Ha1 : db1 !! id = Some a1) by (rewrite Hdb1; apply lookup_insert_eq).
  assert (Hv1 : valid_status (status a1) = true) by (now rewrite Hs1).
  destruct (confirm_repayment_ok db1 u2 n2 id tx amt a1 t1 Ha1 Hv1 Ht1)
    as [a2 [Hr2 Hc2]].
  pose proof (record_repayment_inv _ _ _ Hr2)
    as (t2 & _ & _ & _ & _ & _ & _ & Hreps2 & Hp2 & _).
  assert (Ha2 : db2 !! id = Some a2).
  { unfold db2, b. rewrite Hc2. apply lookup_insert_eq. }
  exists a1, a2. do 2 eexists.
  split; [exact Ha1|]. split; [exact Ha2|].
  split; [exact Hreps1|].
  split; [rewrite Hreps2, Hreps1, <- app_assoc; reflexivity|].
  split; [exact Hp1|]. split; [reflexivity|].
  split; [exact Hp2|]. split.
  - rewrite Hp1, or_zero_Some. reflexivity.
  - unfold entries_with. rewrite Hreps2, Hreps1, <- app_assoc.
    rewrite List.filter_app, length_app. js_simpl.
    rewrite String.eqb_refl. js_simpl. lia.
Qed.

Lemma confirm_applies_every_time_witness :
  exists a2 p2,
    fst (confirm (fst (confirm (ex_db ex_part_paid) ex_owner 7 ex_confirm))
           ex_owner 8 ex_confirm) !! ex_id = Some a2 /\
    repayments a2 =
      [mkRepayment 600 6 "tx-0" "Stripe";
       mkRepayment (10000 / 100) 7 "tx-1" "Stripe";
       mkRepayment (10000 / 100) 8 "tx-1" "Stripe"] /\
    paidAmount a2 = Some p2 /\
    p2 == 800.
Proof.
  destruct (confirm_applies_every_time (ex_db ex_part_paid) ex_owner ex_owner
              7 8 ex_id (Some "tx-1") 10000 ex_part_paid 1100
              eq_refl eq_refl eq_refl)
    as (a1 & a2 & p1 & p2 & _ & Ha2 & _ & Hreps & _ & _ & Hp2 & Hv & _).
  exists a2, p2. repeat split; [exact Ha2 | exact Hreps | exact Hp2 |].
  rewrite Hv. reflexivity.
Defined.

(** The handler never reads the actor. *)
Lemma confirm_ignores_actor db u u' now b :
  confirm db u now b = confirm db u' now b.
Proof. reflexivity. Qed.

(** The sibling route that creates the repayment intent does refuse an
    actor who is not the owner, and an application that is not approved. *)
Lemma create_repayment_intent_guards create db u id n a :
  db !! id = Some a ->
  String.eqb id "" || Qeq_bool n 0 = false ->
  (userId a <> actorId u ->
   create_repayment_intent (Some create) db u (Some id) (Some n) =
   respond 403 "Not authorized") /\
  (userId a = actorId u -> status a <> "Approved" ->
   create_repayment_intent (Some create) db u (Some id) (Some n) =
   respond 400 "Loan must be approved before making repayments").
Proof.
  intros Ha Hreq. unfold create_repayment_intent. rewrite Hreq, Ha. split.
  - intros Hne. apply String.eqb_neq in Hne. now rewrite Hne.
  - intros He Hs. apply String.eqb_eq in He. apply String.eqb_neq in Hs.
    now rewrite He, Hs.
Qed.

(** C3, the code at a failing input.  A confirmation with
    [type = "repayment"] on a [Pending] application is answered 200 and
    appends a ledger entry while the status stays [Pending]; the manual
    route refuses the same application with 400. *)
Lemma confirm_appends_to_pending :
  exists a',
    confirm (ex_db ex_pending) ex_owner 7 ex_confirm =
      (<[ex_id := a']> (ex_db ex_pending), mkResponse 200 (Confirmed a')) /\
    status a' = "Pending" /\
    repayments a' = [mkRepayment (10000 / 100) 7 "tx-1" "Stripe"] /\
    post_repayment (ex_db ex_pending) ex_owner 7 ex_id
      (mkRepaymentBody (Some 100) (Some "tx-1") None) =
      (ex_db ex_pending,
       respond 400 "Loan must be approved before making repayments").
Proof.
  eexists. repeat split; reflexivity.
Qed.

(** C8, the code at a failing input.  An authenticated borrower who
    neither owns the application nor is admin or manager confirms a
    repayment on it: the answer is 200, an entry is appended and 100 is
    credited, so the stored record changes.  The route that creates the
    intent answers the same actor 403. *)
Lemma confirm_by_stranger :
  isOwner ex_stranger ex_approved = false /\
  isAdminOrManager ex_stranger = false /\
  exists a' p,
    confirm (ex_db ex_approved) ex_stranger 7 ex_confirm =
      (<[ex_id := a']> (ex_db ex_approved), mkResponse 200 (Confirmed a')) /\
    repayments a' = [mkRepayment (10000 / 100) 7 "tx-1" "Stripe"] /\
    paidAmount a' = Some p /\ p == 100 /\
    <[ex_id := a']> (ex_db ex_approved) <> ex_db ex_approved /\
    create_repayment_intent (Some (fun _ => Some "secret")) (ex_db ex_approved)
      ex_stranger (Some ex_id) (Some 10000) = respond 403 "Not authorized".
Proof.
  split; [reflexivity|]. split; [reflexivity|].
  do 2 eexists. repeat split; try reflexivity.
  intros H. apply (f_equal (fun m => m !! ex_id)) in H.
  rewrite lookup_insert_eq in H. discriminate.
Qed.

(** C7, the code at a failing input.  An approved application with
    [totalAmount] 0, [remainingAmount] 0 and 300 already credited
    (principal 1000 at 10 percent) is read: the handler stores
    [totalAmount] 1100 and [remainingAmount] 1100 and reports 1100 as
    remaining, which is not [max(0, 1100 - 300)]; the write path's
    reconciliation of the same document gives 800. *)
Lemma get_repayments_backfill_ignores_paid :
  exists a' d t r,
    get_repayments (ex_db ex_legacy) ex_owner ex_id =
      (<[ex_id := a']> (ex_db ex_legacy), mkResponse 200 (Details d)) /\
    totalAmount a' = Some t /\ t == 1100 /\
    paidAmount a' = Some 300 /\
    remainingAmount a' = Some r /\ r == 1100 /\
    rd_remainingAmount d == 1100 /\
    ~ r == Qmax 0 (t - 300) /\
    exists r', remainingAmount (reconcile_write ex_legacy) = Some r' /\ r' == 800.
Proof.
  do 4 eexists. repeat split; try reflexivity.
  - intros H. vm_compute in H. discriminate.
  - eexists. split; reflexivity.
Qed.

(** ** Balances and payment progress after a mutation *)

Lemma floor_is_max (x : Q) : (if Qle_bool x 0 then 0 else x) == Qmax 0 x.
Proof.
  destruct (Qle_bool x 0) eqn:E.
  - apply Qle_bool_iff in E. symmetry. now apply Q.max_l.
  - apply Qle_bool_false in E. symmetry. apply Q.max_r. lra.
Qed.

Lemma record_repayment_canonical r a a' :
  record_repayment r a = Ok a' -> remaining_canonical a'.
Proof.
  intros H. apply record_repayment_inv in H
    as (t & _ & Ht & _ & _ & _ & _ & _ & Hp & Hr & _).
  exists t. eexists. split; [exact Ht|]. split; [exact Hr|].
  rewrite Hp, floor_is_max. apply Q.max_compat; [reflexivity|].
  now rewrite or_zero_Some.
Qed.

Lemma post_repayment_inv db u now id b db' r :
  post_repayment db u now id b = (db', r) -> code r = 200%Z ->
  exists a a' rp,
    db !! id = Some a /\ status a = "Approved" /\ 0 < amount rp /\
    record_repayment rp (reconcile_write a) = Ok a' /\
    db' = <[id := a']> db.
Proof.
  unfold post_repayment.
  destruct (db !! id) as [a|]; [|intros [= <- <-]; discriminate].
  destruct (post_repayment_doc u now b a) as [a'|r'] eqn:Ed.
  - destruct (save id a' db) as [db''|] eqn:Es; [|intros [= <- <-]; discriminate].
    apply save_inv in Es as [_ ->]. intros [= <- <-] _.
    revert Ed. unfold post_repayment_doc.
    destruct (negb (isOwner u a) && negb (isAdminOrManager u)); [discriminate|].
    destruct (String.eqb (status a) "Approved") eqn:Est; [|discriminate].
    apply String.eqb_eq in Est. js_simpl.
    destruct (rb_amount b) as [amt|]; [|discriminate].
    destruct (Qeq_bool amt 0 || Qle_bool amt 0) eqn:Eamt; [discriminate|].
    apply orb_false_elim in Eamt as [_ Eamt]. apply Qle_bool_false in Eamt.
    destruct (remainingAmount (reconcile_write a)) as [rem|].
    + destruct (negb (Qle_bool amt rem)); [discriminate|].
      intros Hr. exists a, a'. eexists. repeat split; [exact Est| |exact Hr].
      exact Eamt.
    + intros Hr. exists a, a'. eexists. repeat split; [exact Est| |exact Hr].
      exact Eamt.
  - intros [= <- <-] Hc. revert Ed. unfold post_repayment_doc.
    repeat match goal with
           | |- context [if ?c then _ else _] => destruct c
           | |- context [match ?c with Some _ => _ | None => _ end] => destruct c
           end; try (intros [= <-]; discriminate).
    all: unfold record_repayment; js_simpl;
      repeat match goal with
           | |- context [if ?c then _ else _] => destruct c
           | |- context [match ?c with Some _ => _ | None => _ end] => destruct c
           end; try discriminate; intros [= <-]; discriminate.
Qed.

Lemma patch_status_doc_approved now a rate :
  interestRate a = Some rate ->
  patch_status_doc now "Approved" a = Ok (approved now rate a).
Proof.
  intros Hr. unfold patch_status_doc. js_simpl. rewrite Hr. reflexivity.
Qed.

Lemma patch_status_approved_inv db u now id db' r :
  patch_status db u now id "Approved" = (db', r) -> code r = 200%Z ->
  exists a rate,
    db !! id = Some a /\ interestRate a = Some rate /\
    db' = <[id := approved now rate a]> db.
Proof.
  unfold patch_status.
  destruct (negb (checkRole ["admin"; "manager"] u)); [intros [= <- <-]; discriminate|].
  destruct (db !! id) as [a|]; [|intros [= <- <-]; discriminate].
  destruct (interestRate a) as [rate|] eqn:Er.
  - rewrite (patch_status_doc_approved now a rate Er).
    rewrite save_Some by reflexivity. intros [= <- <-] _. eauto.
  - unfold patch_status_doc. js_simpl. rewrite Er.
    intros [= <- <-]; discriminate.
Qed.

Lemma patch_status_approved_ok db u now id a rate :
  checkRole ["admin"; "manager"] u = true ->
  db !! id = Some a -> interestRate a = Some rate ->
  patch_status db u now id "Approved" =
    (<[id := approved now rate a]> db,
     mkResponse 200 (Document (approved now rate a))).
Proof.
  intros Hu Ha Hr. unfold patch_status. rewrite Hu, Ha. js_simpl.
  rewrite (patch_status_doc_approved now a rate Hr).
  now rewrite save_Some by reflexivity.
Qed.

(** C2, counterexample.  An approved application on which 600 of 1100
    has been paid is approved again: the answer is 200 and the stored
    [remainingAmount] is 1100 with [paidAmount] still 600, not
    [max(0, 1100 - 600)]. *)
Lemma reapproval_breaks_remaining :
  exists a',
    patch_status (ex_db ex_part_paid) ex_admin 9 ex_id "Approved" =
      (<[ex_id := a']> (ex_db ex_part_paid), mkResponse 200 (Document a')) /\
    paidAmount a' = Some 600 /\
    (exists t r, totalAmount a' = Some t /\ remainingAmount a' = Some r /\
                 t == 1100 /\ r == 1100) /\
    ~ remaining_canonical a'.
Proof.
  eexists. repeat split; try reflexivity.
  - do 2 eexists. repeat split; reflexivity.
  - intros (t & r & Ht & Hr & H). injection Ht as <-. injection Hr as <-.
    vm_compute in H. discriminate.
Qed.

(** C2, as amended.  After every successful manual repayment and every
    successful gateway-confirmed repayment the stored [remainingAmount]
    equals [max(0, totalAmount - paidAmount)].  After every successful
    approval the stored [remainingAmount] equals the stored
    [totalAmount]; that is [max(0, totalAmount - paidAmount)] when
    nothing has been credited ([paidAmount] absent or zero) and
    [totalAmount] is not negative. *)
Theorem remaining_after_mutation :
  (forall db u now id b db' r,
     post_repayment db u now id b = (db', r) -> code r = 200%Z ->
     exists a', db' !! id = Some a' /\ remaining_canonical a') /\
  (forall db u now b db' r,
     c_type b = Some "repayment" ->
     confirm db u now b = (db', r) -> code r = 200%Z ->
     exists a', db' !! c_applicationId b = Some a' /\ remaining_canonical a') /\
  (forall db u now id db' r,
     patch_status db u now id "Approved" = (db', r) -> code r = 200%Z ->
     exists a' t,
       db' !! id = Some a' /\
       totalAmount a' = Some t /\ remainingAmount a' = Some t /\
       (or_zero (paidAmount a') == 0 -> 0 <= t -> remaining_canonical a')).
Proof.
  repeat split.
  - intros db u now id b db' r H Hc.
    apply post_repayment_inv in H as (a & a' & rp & _ & _ & _ & Hr & ->); [|exact Hc].
    exists a'. split; [apply lookup_insert_eq|].
    exact (record_repayment_canonical _ _ _ Hr).
  - intros db u now b db' r Hty H Hc.
    apply (confirm_repayment_inv _ _ _ _ _ _ Hty) in H
      as (a & a' & amt & _ & _ & Hr & -> & _); [|exact Hc].
    exists a'. split; [apply lookup_insert_eq|].
    exact (record_repayment_canonical _ _ _ Hr).
  - intros db u now id db' r H Hc.
    apply patch_status_approved_inv in H as (a & rate & _ & _ & ->); [|exact Hc].
    eexists. eexists. split; [apply lookup_insert_eq|].
    split; [reflexivity|]. split; [reflexivity|].
    intros Hp Ht. do 2 eexists. split; [reflexivity|]. split; [reflexivity|].
    rewrite Hp, Q.max_r by lra. lra.
Qed.

Lemma remaining_after_mutation_witness :
  (exists a', fst (post_repayment (ex_db ex_approved) ex_owner 7 ex_id
                     (mkRepaymentBody (Some 600) None None)) !! ex_id = Some a'
              /\ remaining_canonical a') /\
  (exists a', fst (confirm (ex_db ex_part_paid) ex_owner 7 ex_confirm) !! ex_id
                = Some a' /\ remaining_canonical a') /\
  (exists a', fst (patch_status (ex_db ex_pending) ex_admin 5 ex_id "Approved")
                !! ex_id = Some a' /\ remaining_canonical a').
Proof.
  destruct remaining_after_mutation as (Hpost & Hconfirm & Happrove).
  split; [|split].
  - apply (Hpost (ex_db ex_approved) ex_owner 7%Z ex_id
             (mkRepaymentBody (Some 600) None None) _ _ eq_refl eq_refl).
  - apply (Hconfirm (ex_db ex_part_paid) ex_owner 7%Z ex_confirm _ _
             eq_refl eq_refl eq_refl).
  - destruct (Happrove (ex_db ex_pending) ex_admin 5%Z ex_id _ _ eq_refl eq_refl)
      as (a' & t & Ha' & Ht & _ & Hcan).
    exists a'. split; [exact Ha'|]. apply Hcan.
    + rewrite lookup_insert_eq in Ha'. injection Ha' as <-. reflexivity.
    + rewrite lookup_insert_eq in Ha'. injection Ha' as <-.
      injection Ht as <-. discriminate.
Defined.

Lemma record_repayment_status r a a' :
  record_repayment r a = Ok a' ->
  exists t p,
    totalAmount a' = Some t /\ paidAmount a' = Some p /\
    repaymentStatus a' =
      Some (if Qle_bool (t - p) 0 then "Complete" else "In Progress") /\
    (0 < t -> 0 < p -> repaymentStatus a' = Some (spec_repaymentStatus p t)).
Proof.
  intros H. apply record_repayment_inv in H
    as (t & _ & Ht & _ & _ & _ & _ & _ & Hp & _ & Hs).
  exists t. eexists. split; [exact Ht|]. split; [exact Hp|].
  split; [exact Hs|]. intros Ht0 Hp0. rewrite Hs. f_equal.
  set (p := or_zero (paidAmount a) + amount r) in *.
  unfold spec_repaymentStatus.
  destruct (Qle_bool (t - p) 0) eqn:E.
  - apply Qle_bool_iff in E.
    assert (H1 : Qeq_bool (Qmax 0 (t - p)) 0 = true)
      by (apply Qeq_bool_iff; now apply Q.max_l).
    assert (H2 : Qle_bool t 0 = false) by (now apply Qle_bool_false).
    now rewrite H1, H2.
  - apply Qle_bool_false in E.
    assert (H1 : Qeq_bool (Qmax 0 (t - p)) 0 = false).
    { apply Qeq_bool_false. rewrite Q.max_r by lra. lra. }
    assert (H2 : Qle_bool p 0 = false) by (now apply Qle_bool_false).
    assert (H3 : Qle_bool t p = false) by (apply Qle_bool_false; lra).
    now rewrite H1, H2, H3.
Qed.

Lemma spec_repaymentStatus_unpaid (p t : Q) :
  p == 0 -> spec_repaymentStatus p t = "Pending".
Proof.
  intros Hp. unfold spec_repaymentStatus.
  assert (H2 : Qle_bool p 0 = true) by (apply Qle_bool_iff; lra).
  rewrite H2. js_simpl.
  destruct (Qle_bool t 0) eqn:E; js_simpl; [now rewrite andb_false_r|].
  apply Qle_bool_false in E.
  assert (H1 : Qeq_bool (Qmax 0 (t - p)) 0 = false).
  { apply Qeq_bool_false. rewrite Q.max_r by lra. lra. }
  now rewrite H1.
Qed.

(** C6, counterexample.  An approved application on which 600 of 1100
    has been paid is approved again: the answer is 200 and the stored
    [repaymentStatus] is ["Pending"], while the function of
    ([paidAmount], [totalAmount]) = (600, 1100) is ["In Progress"]. *)
Lemma reapproval_resets_progress :
  exists a' t p,
    patch_status (ex_db ex_part_paid) ex_admin 9 ex_id "Approved" =
      (<[ex_id := a']> (ex_db ex_part_paid), mkResponse 200 (Document a')) /\
    totalAmount a' = Some t /\ paidAmount a' = Some p /\
    t == 1100 /\ p == 600 /\
    repaymentStatus a' = Some "Pending" /\
    spec_repaymentStatus p t = "In Progress".
Proof.
  exists (approved 9 10 ex_part_paid). do 2 eexists.
  split.
  - apply patch_status_approved_ok; [reflexivity | apply lookup_singleton_eq | reflexivity].
  - repeat split; reflexivity.
Qed.

(** C6, as amended.  After every successful repayment, manual or
    gateway-confirmed, [repaymentStatus] is ["Complete"] when
    [totalAmount - paidAmount <= 0] and ["In Progress"] otherwise; this
    is the function of the specification whenever [totalAmount > 0] and
    the resulting [paidAmount > 0].  After every successful approval
    [repaymentStatus] is ["Pending"]; this is the function of the
    specification whenever nothing has been credited ([paidAmount]
    absent or zero). *)
Theorem repaymentStatus_after_mutation :
  (forall db u now id b db' r,
     post_repayment db u now id b = (db', r) -> code r = 200%Z ->
     exists a' t p,
       db' !! id = Some a' /\
       totalAmount a' = Some t /\ paidAmount a' = Some p /\
       repaymentStatus a' =
         Some (if Qle_bool (t - p) 0 then "Complete" else "In Progress") /\
       (0 < t -> 0 < p ->
        repaymentStatus a' = Some (spec_repaymentStatus p t))) /\
  (forall db u now b db' r,
     c_type b = Some "repayment" ->
     confirm db u now b = (db', r) -> code r = 200%Z ->
     exists a' t p,
       db' !! c_applicationId b = Some a' /\
       totalAmount a' = Some t /\ paidAmount a' = Some p /\
       repaymentStatus a' =
         Some (if Qle_bool (t - p) 0 then "Complete" else "In Progress") /\
       (0 < t -> 0 < p ->
        repaymentStatus a' = Some (spec_repaymentStatus p t))) /\
  (forall db u now id db' r,
     patch_status db u now id "Approved" = (db', r) -> code r = 200%Z ->
     exists a' t,
       db' !! id = Some a' /\ totalAmount a' = Some t /\
       repaymentStatus a' = Some "Pending" /\
       (or_zero (paidAmount a') == 0 ->
        repaymentStatus a' =
          Some (spec_repaymentStatus (or_zero (paidAmount a')) t))).
Proof.
  repeat split.
  - intros db u now id b db' r H Hc.
    apply post_repayment_inv in H as (a & a' & rp & _ & _ & _ & Hr & ->); [|exact Hc].
    destruct (record_repayment_status _ _ _ Hr) as (t & p & H).
    exists a', t, p. split; [apply lookup_insert_eq|exact H].
  - intros db u now b db' r Hty H Hc.
    apply (confirm_repayment_inv _ _ _ _ _ _ Hty) in H
      as (a & a' & amt & _ & _ & Hr & -> & _); [|exact Hc].
    destruct (record_repayment_status _ _ _ Hr) as (t & p & H).
    exists a', t, p. split; [apply lookup_insert_eq|exact H].
  - intros db u now id db' r H Hc.
    apply patch_status_approved_inv in H as (a & rate & _ & _ & ->); [|exact Hc].
    do 2 eexists. split; [apply lookup_insert_eq|].
    split; [reflexivity|]. split; [reflexivity|].
    intros Hp. now rewrite (spec_repaymentStatus_unpaid _ _ Hp).
Qed.

Lemma repaymentStatus_after_mutation_witness :
  (exists a', fst (post_repayment (ex_db ex_approved) ex_owner 7 ex_id
                     (mkRepaymentBody (Some 600) None None)) !! ex_id = Some a'
              /\ repaymentStatus a' = Some (spec_repaymentStatus 600 1100)) /\
  (exists a', fst (confirm (ex_db ex_part_paid) ex_owner 7 ex_confirm) !! ex_id
                = Some a'
              /\ repaymentStatus a' = Some (spec_repaymentStatus 700 1100)) /\
  (exists a', fst (patch_status (ex_db ex_pending) ex_admin 5 ex_id "Approved")
                !! ex_id = Some a'
              /\ repaymentStatus a' = Some (spec_repaymentStatus 0 1100)).
Proof.
  destruct repaymentStatus_after_mutation as (Hpost & Hconfirm & Happrove).
  split; [|split].
  - destruct (Hpost (ex_db ex_approved) ex_owner 7%Z ex_id
             (mkRepaymentBody (Some 600) None None) _ _ eq_refl eq_refl)
      as (a' & t & p & Ha' & Ht & Hp & _ & Hs).
    exists a'. split; [exact Ha'|].
    rewrite lookup_insert_eq in Ha'. injection Ha' as <-.
    injection Ht as <-. injection Hp as <-.
    rewrite Hs; reflexivity.
  - destruct (Hconfirm (ex_db ex_part_paid) ex_owner 7%Z ex_confirm _ _
             eq_refl eq_refl eq_refl)
      as (a' & t & p & Ha' & Ht & Hp & _ & Hs).
    exists a'. split; [exact Ha'|].
    rewrite lookup_insert_eq in Ha'. injection Ha' as <-.
    injection Ht as <-. injection Hp as <-.
    rewrite Hs; reflexivity.
  - destruct (Happrove (ex_db ex_pending) ex_admin 5%Z ex_id _ _ eq_refl eq_refl)
      as (a' & t & Ha' & Ht & _ & Hs).
    exists a'. split; [exact Ha'|].
    rewrite lookup_insert_eq in Ha'. injection Ha' as <-.
    injection Ht as <-.
    rewrite Hs; reflexivity.
Defined.

(** ** The life of [totalAmount] (routes/applications.js 128-152) *)

Lemma terms_kept_refl a : terms_kept a a.
Proof. repeat split; auto. Qed.

Lemma terms_kept_trans a b c :
  terms_kept a b -> terms_kept b c -> terms_kept a c.
Proof.
  intros (Hl1 & Hr1 & Ht1) (Hl2 & Hr2 & Ht2).
  split; [congruence|]. split; [congruence|].
  destruct Ht2 as [Ht2|(t & Ht & Hv)].
  - destruct Ht1 as [Ht1|(t & Ht & Hv)]; [left; congruence|].
    right. exists t. split; [congruence|exact Hv].
  - right. exists t. split; [exact Ht|].
    rewrite Hv. unfold principal_with_interest. now rewrite Hl1, Hr1.
Qed.

Lemma patch_status_doc_terms now s a a' :
  patch_status_doc now s a = Ok a' -> terms_kept a a'.
Proof.
  unfold patch_status_doc. destruct (String.eqb s "Approved"); js_simpl.
  - destruct (interestRate a) as [rate|] eqn:Er; [|discriminate].
    intros [= <-]. js_simpl. repeat split; auto. right. eexists.
    split; [reflexivity|]. unfold principal_with_interest.
    rewrite Er, or_zero_Some. reflexivity.
  - intros [= <-]. repeat split. now left.
Qed.

Lemma reconciled_terms a : terms_kept a (reconciled a).
Proof.
  unfold reconciled, reconcile, local_totalAmount, backfill.
  destruct a as [uid loan rate st fee pd appr sched tot paid rem reps rst].
  js_simpl.
  destruct tot as [t|]; js_simpl;
    repeat match goal with
           | |- context [if ?c then _ else _] => destruct c; js_simpl
           end;
    repeat split; auto; right; eexists; (split; [reflexivity|]);
    reflexivity.
Qed.

Lemma reconcile_write_terms a : terms_kept a (reconcile_write a).
Proof.
  unfold reconcile_write.
  destruct a as [uid loan rate st fee pd appr sched tot paid rem reps rst].
  js_simpl.
  destruct tot as [t|]; [destruct (Qeq_bool t 0) eqn:Et|]; js_simpl;
    rewrite ?Et; js_simpl;
    repeat match goal with
           | |- context [if ?c then _ else _] => destruct c; js_simpl
           end;
    repeat split; auto; right; eexists; (split; [reflexivity|]);
    reflexivity.
Qed.

Lemma record_repayment_terms r a a' :
  record_repayment r a = Ok a' -> terms_kept a a'.
Proof.
  intros H. apply record_repayment_inv in H
    as (t & Ht & Ht' & Hl & Hr & _).
  repeat split; auto. left. congruence.
Qed.

Lemma post_repayment_doc_terms u now b a a' :
  post_repayment_doc u now b a = Ok a' -> terms_kept a a'.
Proof.
  unfold post_repayment_doc.
  repeat match goal with
         | |- context [if ?c then _ else _] => destruct c; try discriminate
         | |- context [match ?c with Some _ => _ | None => _ end] =>
             destruct c; try discriminate
         end.
  all: intros H; apply record_repayment_terms in H;
    exact (terms_kept_trans _ _ _ (reconcile_write_terms a) H).
Qed.

Lemma confirm_doc_terms now b a a' :
  confirm_doc now b a = Ok a' -> terms_kept a a'.
Proof.
  unfold confirm_doc.
  case_bool_decide; destruct (c_amount b); try discriminate.
  - apply record_repayment_terms.
  - intros [= <-]. repeat split. now left.
Qed.

(** A request leaves the collection as it was, or replaces one
    document by a valid one with the same terms, or deletes one
    document. *)
Lemma handle_effect db rq :
  fst (handle db rq) = db \/
  (exists id a a', db !! id = Some a /\ terms_kept a a' /\
                   valid_status (status a') = true /\
                   fst (handle db rq) = <[id := a']> db) \/
  (exists id, fst (handle db rq) = delete id db).
Proof.
  destruct rq as [u now id s|u id|u id|u now id b|u now b]; js_simpl.
  - unfold patch_status.
    destruct (negb (checkRole _ u)); [now left|].
    destruct (db !! id) as [a|] eqn:Ea; [|now left].
    destruct (patch_status_doc now s a) as [a'|r] eqn:Ed; [|now left].
    destruct (save id a' db) as [db'|] eqn:Es; [|now left].
    apply save_inv in Es as [Hv ->]. right. left.
    exists id, a, a'. eauto using patch_status_doc_terms.
  - unfold delete_application.
    destruct (db !! id) as [a|]; [|now left].
    destruct (negb _); [now left|]. destruct (negb _); [now left|].
    right. right. now exists id.
  - unfold get_repayments.
    destruct (db !! id) as [a|] eqn:Ea; [|now left].
    destruct (negb (isOwner u a) && negb (isAdminOrManager u)); [now left|].
    rewrite (reconcile_triple a).
    destruct (fst (fst (reconcile a))); [|now left].
    destruct (save id (reconciled a) db) as [db'|] eqn:Es; [|now left].
    apply save_inv in Es as [Hv ->]. right. left.
    exists id, a, (reconciled a). eauto using reconciled_terms.
  - unfold post_repayment.
    destruct (db !! id) as [a|] eqn:Ea; [|now left].
    destruct (post_repayment_doc u now b a) as [a'|r] eqn:Ed; [|now left].
    destruct (save id a' db) as [db'|] eqn:Es; [|now left].
    apply save_inv in Es as [Hv ->]. right. left.
    exists id, a, a'. eauto using post_repayment_doc_terms.
  - unfold confirm.
    destruct (db !! c_applicationId b) as [a|] eqn:Ea; [|now left].
    destruct (confirm_doc now b a) as [a'|r] eqn:Ed; [|now left].
    destruct (save _ a' db) as [db'|] eqn:Es; [|now left].
    apply save_inv in Es as [Hv ->]. right. left.
    exists (c_applicationId b), a, a'. eauto using confirm_doc_terms.
Qed.

(** Validity of the stored statuses is an invariant of the server. *)
Lemma handle_stored_valid db rq :
  stored_valid db -> stored_valid (fst (handle db rq)).
Proof.
  intros Hdb id a.
  destruct (handle_effect db rq)
    as [->|[(i & x & x' & Hx & Hk & Hv & ->)|(i & ->)]].
  - apply Hdb.
  - destruct (decide (i = id)) as [->|Hne].
    + rewrite lookup_insert_eq. now intros [= <-].
    + rewrite lookup_insert_ne by exact Hne. apply Hdb.
  - destruct (decide (i = id)) as [->|Hne].
    + now rewrite lookup_delete_eq.
    + rewrite lookup_delete_ne by exact Hne. apply Hdb.
Qed.

Lemma run_stored_valid rqs : forall db,
  stored_valid db -> stored_valid (run db rqs).
Proof.
  induction rqs as [|rq rest IH]; intros db Hdb; simpl; [exact Hdb|].
  apply IH. now apply handle_stored_valid.
Qed.

Lemma handle_terms_kept db rq id a a' :
  db !! id = Some a -> fst (handle db rq) !! id = Some a' -> terms_kept a a'.
Proof.
  intros Ha.
  destruct (handle_effect db rq)
    as [->|[(i & x & x' & Hx & Hk & _ & ->)|(i & ->)]].
  - rewrite Ha. intros [= <-]. apply terms_kept_refl.
  - destruct (decide (i = id)) as [->|Hne].
    + rewrite lookup_insert_eq. intros [= <-].
      rewrite Ha in Hx. now injection Hx as <-.
    + rewrite lookup_insert_ne by exact Hne. rewrite Ha. intros [= <-].
      apply terms_kept_refl.
  - destruct (decide (i = id)) as [->|Hne].
    + now rewrite lookup_delete_eq.
    + rewrite lookup_delete_ne by exact Hne. rewrite Ha. intros [= <-].
      apply terms_kept_refl.
Qed.

Lemma handle_no_create db rq id :
  db !! id = None -> fst (handle db rq) !! id = None.
Proof.
  intros Ha.
  destruct (handle_effect db rq)
    as [->|[(i & x & x' & Hx & Hk & _ & ->)|(i & ->)]].
  - exact Ha.
  - destruct (decide (i = id)) as [->|Hne]; [congruence|].
    now rewrite lookup_insert_ne.
  - destruct (decide (i = id)) as [->|Hne]; [apply lookup_delete_eq|].
    now rewrite lookup_delete_ne.
Qed.

Lemma run_no_create rqs : forall db id,
  db !! id = None -> run db rqs !! id = None.
Proof.
  induction rqs as [|rq rest IH]; intros db id Ha; simpl; [exact Ha|].
  apply IH. now apply handle_no_create.
Qed.

Lemma run_terms_kept rqs : forall db id a a',
  db !! id = Some a -> run db rqs !! id = Some a' -> terms_kept a a'.
Proof.
  induction rqs as [|rq rest IH]; intros db id a a' Ha; simpl.
  - rewrite Ha. intros [= <-]. apply terms_kept_refl.
  - destruct (fst (handle db rq) !! id) as [a1|] eqn:E1.
    + intros H. apply (terms_kept_trans a a1 a').
      * exact (handle_terms_kept db rq id a a1 Ha E1).
      * exact (IH _ id a1 a' E1 H).
    + rewrite (run_no_create rest _ id E1). discriminate.
Qed.

(** C4, counterexample.  A [Rejected] application, whose [totalAmount]
    is 0, is sent the status [Approved]: the answer is 200, the status
    becomes [Approved] and [totalAmount] is assigned 1100.  The
    transition out of [Rejected] is taken and triggers the computation. *)
Lemma approval_out_of_rejected :
  status ex_rejected = "Rejected" /\
  totalAmount ex_rejected = Some 0 /\
  exists a' t,
    patch_status (ex_db ex_rejected) ex_admin 9 ex_id "Approved" =
      (<[ex_id := a']> (ex_db ex_rejected), mkResponse 200 (Document a')) /\
    status a' = "Approved" /\
    totalAmount a' = Some t /\ t == 1100.
Proof.
  split; [reflexivity|]. split; [reflexivity|].
  exists (approved 9 10 ex_rejected). eexists. split.
  - apply patch_status_approved_ok;
      [reflexivity | apply lookup_singleton_eq | reflexivity].
  - repeat split; reflexivity.
Qed.

(** C4, as amended.  Every successful status update to [Approved],
    whatever the status before it ([Pending], [Rejected] or already
    [Approved]), assigns [totalAmount] the value of the handler's
    expression [loanAmount + loanAmount * interestRate / 100].  Once
    [totalAmount] holds the value of that expression, no sequence of
    later requests changes its value, nor the principal or the rate: a
    repeated approval or a backfill evaluates the same expression
    again. *)
Theorem totalAmount_on_every_approval :
  (forall db u now id db' r,
     patch_status db u now id "Approved" = (db', r) -> code r = 200%Z ->
     exists a a' rate,
       db !! id = Some a /\ interestRate a = Some rate /\
       db' !! id = Some a' /\
       status a' = "Approved" /\
       totalAmount a' = Some (loanAmount a + loanAmount a * rate / 100)) /\
  (forall db id a t rqs a',
     db !! id = Some a ->
     totalAmount a = Some t -> t == principal_with_interest a ->
     run db rqs !! id = Some a' ->
     loanAmount a' = loanAmount a /\ interestRate a' = interestRate a /\
     exists t', totalAmount a' = Some t' /\ t' == t).
Proof.
  split.
  - intros db u now id db' r H Hc.
    apply patch_status_approved_inv in H as (a & rate & Ha & Hr & ->);
      [|exact Hc].
    exists a, (approved now rate a), rate.
    split; [exact Ha|]. split; [exact Hr|].
    split; [apply lookup_insert_eq|]. split; reflexivity.
  - intros db id a t rqs a' Ha Ht Hv Hrun.
    destruct (run_terms_kept rqs db id a a' Ha Hrun) as (Hl & Hr & Hk).
    split; [exact Hl|]. split; [exact Hr|].
    destruct Hk as [Hk|(t' & Ht' & Hv')].
    + exists t. split; [congruence|reflexivity].
    + exists t'. split; [exact Ht'|]. now rewrite Hv', Hv.
Qed.

Lemma totalAmount_on_every_approval_witness :
  (exists a a' rate,
     ex_db ex_rejected !! ex_id = Some a /\ interestRate a = Some rate /\
     <[ex_id := approved 9 10 ex_rejected]> (ex_db ex_rejected) !! ex_id
       = Some a' /\
     status a' = "Approved" /\
     totalAmount a' = Some (loanAmount a + loanAmount a * rate / 100)) /\
  (exists t', totalAmount (approved 9 10 ex_part_paid) = Some t' /\ t' == 1100).
Proof.
  destruct totalAmount_on_every_approval as [Happrove Hkeep].
  split.
  - apply (Happrove (ex_db ex_rejected) ex_admin 9%Z ex_id _ _
             (patch_status_approved_ok (ex_db ex_rejected) ex_admin 9 ex_id
                ex_rejected 10 eq_refl (lookup_singleton_eq _ _) eq_refl)
             eq_refl).
  - apply (Hkeep (ex_db ex_part_paid) ex_id ex_part_paid 1100
             [PatchStatus ex_admin 9 ex_id "Approved"]
             (approved 9 10 ex_part_paid)
             (lookup_singleton_eq _ _) eq_refl eq_refl).
    simpl.
    rewrite (patch_status_approved_ok (ex_db ex_part_paid) ex_admin 9 ex_id
               ex_part_paid 10 eq_refl (lookup_singleton_eq _ _) eq_refl).
    apply lookup_insert_eq.
Defined.

(** ** Sequences of requests: what no handler does *)

Lemma patch_status_doc_ledger now s a a' :
  patch_status_doc now s a = Ok a' -> ledger_kept a a'.
Proof.
  unfold patch_status_doc. destruct (String.eqb s "Approved"); js_simpl.
  - destruct (interestRate a); [|discriminate].
    intros [= <-]. split; [reflexivity|]. left. split; reflexivity.
  - intros [= <-]. split; [reflexivity|]. left. split; reflexivity.
Qed.

Lemma reconciled_ledger a : ledger_kept a (reconciled a).
Proof.
  unfold reconciled, reconcile, local_totalAmount, backfill.
  destruct a as [uid loan rate st fee pd appr sched tot paid rem reps rst].
  js_simpl.
  destruct tot as [t|]; js_simpl;
    repeat match goal with
           | |- context [if ?c then _ else _] => destruct c; js_simpl
           end;
    (split; [reflexivity|]); left; split; reflexivity.
Qed.

Lemma reconcile_write_ledger a :
  userId (reconcile_write a) = userId a /\
  status (reconcile_write a) = status a /\
  repayments (reconcile_write a) = repayments a /\
  paidAmount (reconcile_write a) = paidAmount a.
Proof.
  unfold reconcile_write.
  destruct (falsy (totalAmount a)); js_simpl;
    destruct (falsy (remainingAmount a) || negative (remainingAmount a));
    js_simpl; repeat split; reflexivity.
Qed.

Lemma record_repayment_ledger r a a' :
  record_repayment r a = Ok a' -> ledger_kept a a'.
Proof.
  intros H. apply record_repayment_inv in H
    as (t & _ & _ & _ & _ & _ & Hu & Hreps & Hp & _).
  split; [exact Hu|]. right. exists r. split; assumption.
Qed.

Lemma post_repayment_doc_record u now b a a' :
  post_repayment_doc u now b a = Ok a' ->
  exists amt,
    rb_amount b = Some amt /\
    record_repayment
      (mkRepayment amt now (or_string (rb_transactionId b) "")
         (or_string (rb_paymentMethod b) "Stripe")) (reconcile_write a) = Ok a'.
Proof.
  unfold post_repayment_doc.
  repeat match goal with
         | |- context [if ?c then _ else _] => destruct c; try discriminate
         | |- context [match ?c with Some _ => _ | None => _ end] =>
             destruct c; try discriminate
         end; eauto.
Qed.

Lemma doc_step_ledger a a' : doc_step a a' -> ledger_kept a a'.
Proof.
  intros [now s a1 H| H |u now b a1 H|now b a1 H].
  - exact (patch_status_doc_ledger _ _ _ _ H).
  - apply reconciled_ledger.
  - apply post_repayment_doc_record in H as (amt & _ & H).
    apply record_repayment_ledger in H as [Hu H].
    destruct (reconcile_write_ledger a) as (Hu' & _ & Hr' & Hp').
    split; [congruence|]. rewrite Hr', Hp' in H. exact H.
  - revert H. unfold confirm_doc.
    case_bool_decide; destruct (c_amount b); try discriminate.
    + apply record_repayment_ledger.
    + intros [= <-]. split; [reflexivity|]. left. split; reflexivity.
Qed.

(** A request leaves the collection as it was, or saves a new version
    of the document it addresses, or deletes that document. *)
Lemma handle_cases db rq :
  fst (handle db rq) = db \/
  (exists a a', db !! target rq = Some a /\ doc_step a a' /\
                fst (handle db rq) = <[target rq := a']> db) \/
  (exists a, db !! target rq = Some a /\
             fst (handle db rq) = delete (target rq) db).
Proof.
  destruct rq as [u now id s|u id|u id|u now id b|u now b]; js_simpl.
  - unfold patch_status.
    destruct (negb (checkRole _ u)); [now left|].
    destruct (db !! id) as [a|] eqn:Ea; [|now left].
    destruct (patch_status_doc now s a) as [a'|r] eqn:Ed; [|now left].
    destruct (save id a' db) as [db'|] eqn:Es; [|now left].
    apply save_inv in Es as [Hv ->]. right. left.
    exists a, a'. eauto using doc_step.
  - unfold delete_application.
    destruct (db !! id) as [a|]; [|now left].
    destruct (negb _); [now left|]. destruct (negb _); [now left|].
    right. right. now exists a.
  - unfold get_repayments.
    destruct (db !! id) as [a|] eqn:Ea; [|now left].
    destruct (negb (isOwner u a) && negb (isAdminOrManager u)); [now left|].
    rewrite (reconcile_triple a).
    destruct (fst (fst (reconcile a))) eqn:Esaved; [|now left].
    destruct (save id (reconciled a) db) as [db'|] eqn:Es; [|now left].
    apply save_inv in Es as [Hv ->]. right. left.
    exists a, (reconciled a). eauto using doc_step.
  - unfold post_repayment.
    destruct (db !! id) as [a|] eqn:Ea; [|now left].
    destruct (post_repayment_doc u now b a) as [a'|r] eqn:Ed; [|now left].
    destruct (save id a' db) as [db'|] eqn:Es; [|now left].
    apply save_inv in Es as [Hv ->]. right. left.
    exists a, a'. eauto using doc_step.
  - unfold confirm.
    destruct (db !! c_applicationId b) as [a|] eqn:Ea; [|now left].
    destruct (confirm_doc now b a) as [a'|r] eqn:Ed; [|now left].
    destruct (save _ a' db) as [db'|] eqn:Es; [|now left].
    apply save_inv in Es as [Hv ->]. right. left.
    exists a, a'. eauto using doc_step.
Qed.

Lemma handle_frame db rq id :
  id <> target rq -> fst (handle db rq) !! id = db !! id.
Proof.
  intros Hne.
  destruct (handle_cases db rq) as [->|[(a & a' & _ & _ & ->)|(a & _ & ->)]].
  - reflexivity.
  - now rewrite lookup_insert_ne.
  - now rewrite lookup_delete_ne.
Qed.

Lemma handle_ledger db rq id a a' :
  db !! id = Some a -> fst (handle db rq) !! id = Some a' ->
  a' = a \/ ledger_kept a a'.
Proof.
  intros Ha.
  destruct (decide (id = target rq)) as [->|Hne].
  - destruct (handle_cases db rq)
      as [->|[(x & x' & Hx & Hstep & ->)|(x & _ & ->)]].
    + rewrite Ha. intros [= <-]. now left.
    + rewrite lookup_insert_eq. intros [= <-].
      rewrite Ha in Hx. injection Hx as <-. right. now apply doc_step_ledger.
    + now rewrite lookup_delete_eq.
  - rewrite (handle_frame db rq id Hne), Ha. intros [= <-]. now left.
Qed.

Lemma ledger_kept_facts a a' :
  ledger_kept a a' ->
  userId a' = userId a /\
  repayments a `prefix_of` repayments a'.
Proof.
  intros [Hu [[Hr Hp]|(r & Hr & Hp)]]; (split; [exact Hu|]).
  - now rewrite Hr.
  - rewrite Hr. now apply prefix_app_r.
Qed.

Lemma run_ledger rqs : forall db id a a',
  db !! id = Some a -> run db rqs !! id = Some a' ->
  userId a' = userId a /\
  repayments a `prefix_of` repayments a'.
Proof.
  induction rqs as [|rq rest IH]; intros db id a a' Ha; simpl.
  - rewrite Ha. intros [= <-]. split; auto.
  - destruct (fst (handle db rq) !! id) as [a1|] eqn:E1.
    + intros H. destruct (IH _ id a1 a' E1 H) as (Hu & Hp).
      destruct (handle_ledger db rq id a a1 Ha E1) as [->|Hk];
        [split; auto|].
      apply ledger_kept_facts in Hk as (Hu1 & Hp1).
      split; [congruence|]. now transitivity (repayments a1).
    + rewrite (run_no_create rest _ id E1). discriminate.
Qed.

(** ** The manual repayment: acceptance and its effect *)

Lemma reconcile_write_canonical a :
  falsy (totalAmount a) = false -> remaining_canonical a ->
  exists t rem,
    totalAmount a = Some t /\
    totalAmount (reconcile_write a) = Some t /\
    remainingAmount (reconcile_write a) = Some rem /\
    rem == Qmax 0 (t - or_zero (paidAmount a)).
Proof.
  intros Hf (t & r & Ht & Hr & Hc). unfold reconcile_write.
  rewrite Ht in Hf |- *. js_simpl. rewrite Hf. js_simpl.
  rewrite Hr. js_simpl.
  destruct (Qeq_bool r 0 || negb (Qle_bool 0 r)) eqn:E; js_simpl.
  - exists t. eexists. repeat split; [exact Ht|].
    destruct (Qle_bool 0 (t - or_zero (paidAmount a))) eqn:E2; js_simpl.
    + apply Qle_bool_iff in E2. now rewrite Q.max_r.
    + apply Qle_bool_false in E2. rewrite Q.max_l by lra. reflexivity.
  - exists t, r. repeat split; [exact Ht | exact Hr | exact Hc].
Qed.

Lemma post_repayment_run db u now id b a amt rem :
  db !! id = Some a ->
  negb (isOwner u a) && negb (isAdminOrManager u) = false ->
  status a = "Approved" ->
  rb_amount b = Some amt -> 0 < amt ->
  remainingAmount (reconcile_write a) = Some rem -> amt <= rem ->
  exists a',
    record_repayment
      (mkRepayment amt now (or_string (rb_transactionId b) "")
         (or_string (rb_paymentMethod b) "Stripe")) (reconcile_write a) = Ok a' /\
    post_repayment db u now id b =
      (<[id := a']> db,
       mkResponse 200 (Recorded (totalAmount a') (paidAmount a')
                         (remainingAmount a') (repaymentStatus a'))).
Proof.
  intros Ha Hauth Hs Hamt Hpos Hrem Hle.
  assert (Ht : exists t, totalAmount (reconcile_write a) = Some t).
  { unfold reconcile_write.
    destruct (totalAmount a) as [t|] eqn:Et; js_simpl;
      [destruct (Qeq_bool t 0) eqn:E0; js_simpl|];
      match goal with
      | |- context [if ?c then _ else _] => destruct c
      end; js_simpl; rewrite ?Et; eauto. }
  destruct Ht as [t Ht].
  destruct (record_repayment_Ok
              (mkRepayment amt now (or_string (rb_transactionId b) "")
                 (or_string (rb_paymentMethod b) "Stripe"))
              (reconcile_write a) t Ht) as [a' Hr].
  exists a'. split; [exact Hr|].
  unfold post_repayment, post_repayment_doc. rewrite Ha, Hauth.
  apply String.eqb_eq in Hs. rewrite Hs. js_simpl. rewrite Hamt.
  assert (H0 : Qeq_bool amt 0 = false) by (apply Qeq_bool_false; lra).
  assert (H1 : Qle_bool amt 0 = false) by (now apply Qle_bool_false).
  assert (H2 : Qle_bool amt rem = true) by (now apply Qle_bool_iff).
  rewrite H0, H1, Hrem, H2. js_simpl. rewrite Hr.
  apply record_repayment_inv in Hr as (_ & _ & _ & _ & _ & Hst & _).
  destruct (reconcile_write_ledger a) as (_ & Hst' & _).
  apply String.eqb_eq in Hs.
  rewrite save_Some by (now rewrite Hst, Hst', Hs). reflexivity.
Qed.

Lemma ex_db_valid a :
  valid_status (status a) = true -> stored_valid (ex_db a).
Proof.
  intros Hv id x H. unfold ex_db in H.
  apply lookup_singleton_Some in H as [_ <-]. exact Hv.
Qed.

Lemma ex_post_600 :
  exists a',
    post_repayment (ex_db ex_approved) ex_owner 7 ex_id ex_repay_600 =
      (<[ex_id := a']> (ex_db ex_approved),
       mkResponse 200 (Recorded (totalAmount a') (paidAmount a')
                         (remainingAmount a') (repaymentStatus a'))).
Proof.
  destruct (post_repayment_run (ex_db ex_approved) ex_owner 7 ex_id
              ex_repay_600 ex_approved 600 1100 (lookup_singleton_eq _ _)
              eq_refl eq_refl eq_refl eq_refl eq_refl)
    as (a' & _ & H); [discriminate|].
  exists a'. exact H.
Qed.

Lemma ex_run_600 :
  exists a',
    run (ex_db ex_approved) [PostRepayment ex_owner 7 ex_id ex_repay_600]
      !! ex_id = Some a'.
Proof.
  destruct ex_post_600 as [a' H]. exists a'.
  cbn [run handle]. rewrite H. apply lookup_insert_eq.
Qed.

Lemma post_repayment_accepts_iff db u now id b a :
  db !! id = Some a ->
  (code (snd (post_repayment db u now id b)) = 200%Z <->
   isOwner u a || isAdminOrManager u = true /\
   status a = "Approved" /\
   exists amt rem,
     rb_amount b = Some amt /\ 0 < amt /\
     remainingAmount (reconcile_write a) = Some rem /\ amt <= rem).
Proof.
  intros Ha. split.
  - unfold post_repayment, post_repayment_doc. rewrite Ha.
    destruct (isOwner u a || isAdminOrManager u) eqn:Eauth.
    2:{ apply orb_false_elim in Eauth as [-> ->]. js_simpl. discriminate. }
    replace (negb (isOwner u a) && negb (isAdminOrManager u)) with false
      by (destruct (isOwner u a), (isAdminOrManager u); js_simpl; congruence).
    destruct (String.eqb (status a) "Approved") eqn:Es; js_simpl;
      [|discriminate].
    apply String.eqb_eq in Es.
    destruct (rb_amount b) as [amt|]; js_simpl; [|discriminate].
    destruct (Qeq_bool amt 0 || Qle_bool amt 0) eqn:E0; js_simpl;
      [discriminate|].
    apply orb_false_elim in E0 as [_ E0]. apply Qle_bool_false in E0.
    destruct (reconcile_write_remaining a) as [rem Hrem]. rewrite Hrem.
    destruct (Qle_bool amt rem) eqn:E1; js_simpl; [|discriminate].
    apply Qle_bool_iff in E1. intros _.
    split; [reflexivity|]. split; [exact Es|]. exists amt, rem. auto.
  - intros (Hauth & Hs & amt & rem & Hamt & Hpos & Hrem & Hle).
    assert (Hauth' : negb (isOwner u a) && negb (isAdminOrManager u) = false)
      by (destruct (isOwner u a), (isAdminOrManager u); js_simpl; congruence).
    destruct (post_repayment_run db u now id b a amt rem
                Ha Hauth' Hs Hamt Hpos Hrem Hle) as (a' & _ & ->).
    reflexivity.
Qed.

(** X6. On an existing document, a manual repayment whose amount is a
    number is answered 200 only when the actor is the owner or an admin
    or manager, the status is [Approved], and the amount is positive and
    not above the reconciled [remainingAmount]. *)
Theorem post_repayment_accepts db u now id b a :
  db !! id = Some a ->
  code (snd (post_repayment db u now id b)) = 200%Z ->
  isOwner u a || isAdminOrManager u = true /\
  status a = "Approved" /\
  exists amt rem,
    rb_amount b = Some amt /\ 0 < amt /\
    remainingAmount (reconcile_write a) = Some rem /\ amt <= rem.
Proof.
  intros Ha. apply (post_repayment_accepts_iff db u now id b a Ha).
Qed.

Lemma post_repayment_accepts_witness :
  isOwner ex_owner ex_approved || isAdminOrManager ex_owner = true /\
  status ex_approved = "Approved" /\
  exists amt rem,
    rb_amount ex_repay_600 = Some amt /\ 0 < amt /\
    remainingAmount (reconcile_write ex_approved) = Some rem /\ amt <= rem.
Proof.
  apply (post_repayment_accepts (ex_db ex_approved) ex_owner 7 ex_id
           ex_repay_600 ex_approved (lookup_singleton_eq _ _)).
  destruct ex_post_600 as [a' H]. rewrite H. reflexivity.
Defined.

(** X8. A loan that is paid off accepts no manual repayment: with a
    nonzero [totalAmount], a canonical [remainingAmount] and
    [paidAmount >= totalAmount], every manual repayment request, from
    anyone and for any amount, is refused and changes nothing. *)
Theorem post_repayment_closed_loan db u now id b a t :
  db !! id = Some a ->
  totalAmount a = Some t -> ~ t == 0 ->
  remaining_canonical a ->
  t <= or_zero (paidAmount a) ->
  exists r, post_repayment db u now id b = (db, r) /\ code r <> 200%Z.
Proof.
  intros Ha Ht Hnz Hcan Hfull.
  assert (Hf : falsy (totalAmount a) = false)
    by (rewrite Ht; now apply Qeq_bool_false).
  destruct (post_repayment db u now id b) as [db' r] eqn:H.
  destruct (Z.eq_dec (code r) 200%Z) as [Hc|Hc].
  - exfalso.
    assert (Hacc : code (snd (post_repayment db u now id b)) = 200%Z)
      by (now rewrite H).
    apply (post_repayment_accepts_iff db u now id b a Ha) in Hacc
      as (_ & _ & amt & rem & _ & Hpos & Hrem & Hle).
    destruct (reconcile_write_canonical a Hf Hcan)
      as (t0 & rem0 & Ht0 & _ & Hrem0 & Hv).
    rewrite Ht in Ht0. injection Ht0 as <-.
    rewrite Hrem in Hrem0. injection Hrem0 as <-.
    rewrite Q.max_l in Hv by lra. lra.
  - exists r. split; [|exact Hc].
    now rewrite (post_repayment_failure_unchanged db u now id b db' r H Hc).
Qed.

Lemma post_repayment_closed_loan_witness :
  exists r,
    post_repayment (ex_db ex_paid_off) ex_admin 7 ex_id ex_repay_600 =
      (ex_db ex_paid_off, r) /\ code r <> 200%Z.
Proof.
  apply (post_repayment_closed_loan (ex_db ex_paid_off) ex_admin 7 ex_id
           ex_repay_600 ex_paid_off 1100 (lookup_singleton_eq _ _) eq_refl).
  - discriminate.
  - exists 1100, 0. repeat split; reflexivity.
  - discriminate.
Defined.


(** ** Status updates and cancellation (routes/applications.js) *)

Lemma patch_status_accepts_iff db u now id s a :
  db !! id = Some a ->
  (code (snd (patch_status db u now id s)) = 200%Z <->
   checkRole ["admin"; "manager"] u = true /\
   valid_status s = true /\
   (s = "Approved" -> exists rate, interestRate a = Some rate)).
Proof.
  intros Ha. unfold patch_status.
  destruct (checkRole ["admin"; "manager"] u) eqn:Er; js_simpl.
  2:{ split; [discriminate|]. intros (H & _). discriminate. }
  rewrite Ha. unfold patch_status_doc, save.
  destruct (String.eqb s "Approved") eqn:Es; js_simpl.
  - apply String.eqb_eq in Es. subst s.
    destruct (interestRate a) as [rate|] eqn:Erate; js_simpl.
    + split; [|reflexivity]. intros _. repeat split. eauto.
    + split; [discriminate|]. intros (_ & _ & H).
      destruct (H eq_refl) as [rate Hr]. discriminate.
  - apply String.eqb_neq in Es.
    destruct (valid_status s) eqn:Ev; js_simpl.
    + split; [|reflexivity]. intros _. repeat split. intros ->. now elim Es.
    + split; [discriminate|]. intros (_ & H & _). discriminate.
Qed.

Lemma patch_status_failure_unchanged db u now id s :
  code (snd (patch_status db u now id s)) <> 200%Z ->
  fst (patch_status db u now id s) = db.
Proof.
  unfold patch_status.
  destruct (negb (checkRole _ u)); [reflexivity|].
  destruct (db !! id) as [a|]; [|reflexivity].
  destruct (patch_status_doc now s a) as [a'|r]; [|reflexivity].
  destruct (save id a' db); [|reflexivity].
  js_simpl. intros H. now elim H.
Qed.

(** X10. A status update on an existing document is answered 200 only
    when the actor is admin or manager, the requested status is one of
    the schema's three, and, for [Approved], the document has an
    [interestRate]; any other answer leaves the collection unchanged. *)
Theorem patch_status_accepts db u now id s a :
  db !! id = Some a ->
  (code (snd (patch_status db u now id s)) = 200%Z ->
   checkRole ["admin"; "manager"] u = true /\
   valid_status s = true /\
   (s = "Approved" -> exists rate, interestRate a = Some rate)) /\
  (code (snd (patch_status db u now id s)) <> 200%Z ->
   fst (patch_status db u now id s) = db).
Proof.
  intros Ha. split.
  - apply (patch_status_accepts_iff db u now id s a Ha).
  - apply patch_status_failure_unchanged.
Qed.

Lemma patch_status_accepts_witness :
  (checkRole ["admin"; "manager"] ex_admin = true /\
   valid_status "Rejected" = true) /\
  fst (patch_status (ex_db ex_pending) ex_admin 9 ex_id "Cancelled")
    = ex_db ex_pending.
Proof.
  split.
  - destruct (proj1 (patch_status_accepts (ex_db ex_pending) ex_admin 9 ex_id
                       "Rejected" ex_pending (lookup_singleton_eq _ _)))
      as (H1 & H2 & _); [|split; assumption].
    unfold patch_status.
    rewrite (lookup_singleton_eq ex_id ex_pending
               : ex_db ex_pending !! ex_id = _).
    reflexivity.
  - apply (patch_status_accepts (ex_db ex_pending) ex_admin 9 ex_id "Cancelled"
             ex_pending (lookup_singleton_eq _ _)).
    intros H.
    apply (patch_status_accepts (ex_db ex_pending) ex_admin 9 ex_id "Cancelled"
             ex_pending (lookup_singleton_eq _ _)) in H as (_ & H & _).
    discriminate.
Defined.

(** X11. A successful status update to a status other than [Approved]
    stores the requested status and keeps the ledger and every balance,
    payment progress and approval date the document had: also when a
    loan that was approved and partly repaid is set to [Rejected] or
    back to [Pending]. *)
Theorem patch_status_only_status db u now id s db' r :
  s <> "Approved" ->
  patch_status db u now id s = (db', r) -> code r = 200%Z ->
  exists a a',
    db !! id = Some a /\ db' !! id = Some a' /\
    status a' = s /\
    repayments a' = repayments a /\
    (forall t, totalAmount a = Some t -> totalAmount a' = Some t) /\
    (forall p, paidAmount a = Some p -> paidAmount a' = Some p) /\
    (forall x, remainingAmount a = Some x -> remainingAmount a' = Some x) /\
    (forall x, repaymentStatus a = Some x -> repaymentStatus a' = Some x) /\
    (forall x, approvedAt a = Some x -> approvedAt a' = Some x).
Proof.
  intros Hs. unfold patch_status, patch_status_doc.
  destruct (negb (checkRole _ u)); [intros [= <- <-]; discriminate|].
  destruct (db !! id) as [a|]; [|intros [= <- <-]; discriminate].
  apply String.eqb_neq in Hs. rewrite Hs.
  destruct (save id (set_status s a) db) as [db''|] eqn:Es;
    [|intros [= <- <-]; discriminate].
  apply save_inv in Es as [_ ->]. intros [= <- <-] _.
  exists a, (set_status s a). split; [reflexivity|].
  split; [apply lookup_insert_eq|]. repeat split; auto.
Qed.

Lemma ex_reject_part_paid :
  patch_status (ex_db ex_part_paid) ex_admin 9 ex_id "Rejected" =
    (<[ex_id := set_status "Rejected" ex_part_paid]> (ex_db ex_part_paid),
     mkResponse 200 (Document (set_status "Rejected" ex_part_paid))).
Proof.
  unfold patch_status.
  rewrite (lookup_singleton_eq ex_id ex_part_paid
             : ex_db ex_part_paid !! ex_id = _).
  reflexivity.
Qed.

Lemma patch_status_only_status_witness :
  exists a',
    <[ex_id := set_status "Rejected" ex_part_paid]> (ex_db ex_part_paid)
      !! ex_id = Some a' /\
    status a' = "Rejected" /\
    repayments a' = repayments ex_part_paid /\
    paidAmount a' = Some 600 /\
    remainingAmount a' = Some 500.
Proof.
  destruct (patch_status_only_status (ex_db ex_part_paid) ex_admin 9 ex_id
              "Rejected" _ _ (fun H => ltac:(discriminate H))
              ex_reject_part_paid eq_refl)
    as (a & a' & Ha & Ha' & Hst & Hreps & _ & Hp & Hr & _).
  rewrite (lookup_singleton_eq ex_id ex_part_paid
             : ex_db ex_part_paid !! ex_id = _) in Ha.
  injection Ha as <-.
  exists a'. split; [exact Ha'|]. split; [exact Hst|].
  split; [exact Hreps|]. split; [now apply Hp | now apply Hr].
Defined.

(** X12. Cancelling removes the document exactly when the actor is its
    owner and its status is [Pending]; otherwise (admins and managers
    included) the request is refused and the collection unchanged. *)
Theorem delete_application_outcome db u id a :
  db !! id = Some a ->
  (userId a = actorId u /\ status a = "Pending" ->
   delete_application db u id =
     (delete id db, respond 200 "Application cancelled successfully")) /\
  (~ (userId a = actorId u /\ status a = "Pending") ->
   fst (delete_application db u id) = db /\
   code (snd (delete_application db u id)) <> 200%Z).
Proof.
  intros Ha. unfold delete_application. rewrite Ha. split.
  - intros [Hu Hs]. apply String.eqb_eq in Hu, Hs. now rewrite Hu, Hs.
  - intros Hn.
    destruct (String.eqb (userId a) (actorId u)) eqn:Eu; js_simpl;
      [|split; [reflexivity|discriminate]].
    destruct (String.eqb (status a) "Pending") eqn:Es; js_simpl;
      [|split; [reflexivity|discriminate]].
    apply String.eqb_eq in Eu, Es. elim Hn. now split.
Qed.

Lemma delete_application_outcome_witness :
  delete_application (ex_db ex_pending) ex_owner ex_id =
    (delete ex_id (ex_db ex_pending),
     respond 200 "Application cancelled successfully") /\
  fst (delete_application (ex_db ex_pending) ex_admin ex_id) = ex_db ex_pending.
Proof.
  split.
  - apply (delete_application_outcome (ex_db ex_pending) ex_owner ex_id
             ex_pending (lookup_singleton_eq _ _)).
    split; reflexivity.
  - apply (delete_application_outcome (ex_db ex_pending) ex_admin ex_id
             ex_pending (lookup_singleton_eq _ _)).
    intros [H _]. discriminate.
Defined.


(** ** Who may use the repayment routes *)

Lemma record_repayment_Fail r a x :
  record_repayment r a = Fail x -> x = server_error.
Proof.
  unfold record_repayment. js_simpl.
  destruct (totalAmount a); [destruct (Qle_bool _ 0); discriminate|].
  now intros [= <-].
Qed.

(** X9. On an existing document the two repayment routes answer 403
    exactly when the actor is neither the owner nor an admin or manager;
    the 403 comes before any other check and with the collection
    unchanged. *)
Theorem repayment_routes_forbidden db u now id b a :
  db !! id = Some a ->
  (code (snd (get_repayments db u id)) = 403%Z <->
   isOwner u a = false /\ isAdminOrManager u = false) /\
  (code (snd (post_repayment db u now id b)) = 403%Z <->
   isOwner u a = false /\ isAdminOrManager u = false) /\
  (isOwner u a = false /\ isAdminOrManager u = false ->
   get_repayments db u id = (db, respond 403 "Not authorized") /\
   post_repayment db u now id b = (db, respond 403 "Not authorized")).
Proof.
  intros Ha.
  assert (Hdeny : isOwner u a = false /\ isAdminOrManager u = false ->
            get_repayments db u id = (db, respond 403 "Not authorized") /\
            post_repayment db u now id b = (db, respond 403 "Not authorized")).
  { intros [Ho Hr].
    unfold get_repayments, post_repayment, post_repayment_doc.
    rewrite Ha, Ho, Hr. split; reflexivity. }
  split; [|split; [|exact Hdeny]].
  - split; [|intros H; now rewrite (proj1 (Hdeny H))].
    unfold get_repayments. rewrite Ha.
    destruct (isOwner u a), (isAdminOrManager u); js_simpl; auto;
      rewrite (reconcile_triple a);
      destruct (fst (fst (reconcile a))); js_simpl; try discriminate;
      destruct (save id (reconciled a) db); js_simpl; discriminate.
  - split; [|intros H; now rewrite (proj2 (Hdeny H))].
    intros H.
    destruct (isOwner u a) eqn:Ho, (isAdminOrManager u) eqn:Hr; auto;
      exfalso; revert H; unfold post_repayment, post_repayment_doc;
      rewrite Ha, Ho, Hr; js_simpl;
      repeat match goal with
             | |- context [if ?c then _ else _] => destruct c; js_simpl
             | |- context [match ?c with Some _ => _ | None => _ end] =>
                 destruct c; js_simpl
             | |- context [match record_repayment ?r ?x with _ => _ end] =>
                 let E := fresh "E" in
                 destruct (record_repayment r x) eqn:E;
                 [|apply record_repayment_Fail in E; subst]; js_simpl
             end; discriminate.
Qed.

Lemma repayment_routes_forbidden_witness :
  get_repayments (ex_db ex_approved) ex_stranger ex_id =
    (ex_db ex_approved, respond 403 "Not authorized") /\
  post_repayment (ex_db ex_approved) ex_stranger 7 ex_id ex_repay_600 =
    (ex_db ex_approved, respond 403 "Not authorized").
Proof.
  apply (repayment_routes_forbidden (ex_db ex_approved) ex_stranger 7 ex_id
           ex_repay_600 ex_approved (lookup_singleton_eq _ _)).
  split; reflexivity.
Defined.


(** ** What a read reports and what it may change *)

Lemma reconciled_keeps a :
  loanAmount (reconciled a) = loanAmount a /\
  applicationFeeStatus (reconciled a) = applicationFeeStatus a /\
  repayments (reconciled a) = repayments a /\
  paidAmount (reconciled a) = paidAmount a /\
  repaymentStatus (reconciled a) = repaymentStatus a.
Proof.
  unfold reconciled, reconcile, local_totalAmount, backfill.
  destruct a as [uid loan rate st fee pd appr sched tot paid rem reps rst].
  js_simpl.
  destruct tot as [t|]; js_simpl;
    repeat match goal with
           | |- context [if ?c then _ else _] => destruct c; js_simpl
           end; repeat split; reflexivity.
Qed.

(** X13. Reading the repayment details never removes the document and
    never changes its status, owner, principal, fee status or ledger,
    nor a [paidAmount] or [repaymentStatus] it has; it changes the
    stored document at all only when the status is [Approved] and
    [totalAmount] is absent or zero. *)
Theorem get_repayments_changes_balances_only db u id a :
  db !! id = Some a ->
  exists a',
    fst (get_repayments db u id) !! id = Some a' /\
    status a' = status a /\ userId a' = userId a /\
    loanAmount a' = loanAmount a /\
    applicationFeeStatus a' = applicationFeeStatus a /\
    repayments a' = repayments a /\
    (forall p, paidAmount a = Some p -> paidAmount a' = Some p) /\
    (forall x, repaymentStatus a = Some x -> repaymentStatus a' = Some x) /\
    (a' <> a -> status a = "Approved" /\ falsy (totalAmount a) = true).
Proof.
  intros Ha. unfold get_repayments. rewrite Ha.
  assert (Hsame : exists a',
            Some a = Some a' /\
            status a' = status a /\ userId a' = userId a /\
            loanAmount a' = loanAmount a /\
            applicationFeeStatus a' = applicationFeeStatus a /\
            repayments a' = repayments a /\
            (forall p, paidAmount a = Some p -> paidAmount a' = Some p) /\
            (forall x, repaymentStatus a = Some x ->
                       repaymentStatus a' = Some x) /\
            (a' <> a -> status a = "Approved" /\ falsy (totalAmount a) = true)).
  { exists a. repeat split; auto; congruence. }
  destruct (negb (isOwner u a) && negb (isAdminOrManager u)); js_simpl;
    [now rewrite Ha|].
  rewrite (reconcile_triple a).
  destruct (fst (fst (reconcile a))) eqn:Es; js_simpl; [|now rewrite Ha].
  pose proof (reconcile_saved a Es) as Hst.
  destruct (reconciled_owner_status a) as [Hu Hs].
  destruct (reconciled_keeps a) as (Hl & Hfee & Hreps & Hp & Hrs).
  rewrite save_Some by (rewrite Hs, Hst; reflexivity). js_simpl.
  exists (reconciled a). rewrite lookup_insert_eq.
  split; [reflexivity|]. split; [exact Hs|]. split; [exact Hu|].
  split; [exact Hl|]. split; [exact Hfee|]. split; [exact Hreps|].
  split; [intros p H; now rewrite Hp|].
  split; [intros x H; now rewrite Hrs|].
  intros _. split; [exact Hst|].
  destruct (falsy (totalAmount a)) eqn:Hf; [reflexivity|].
  destruct (reconcile_canonical a Hf) as [Hno _]. congruence.
Qed.

Lemma get_repayments_changes_balances_only_witness :
  exists a',
    fst (get_repayments (ex_db ex_legacy) ex_owner ex_id) !! ex_id = Some a' /\
    status a' = "Approved" /\
    repayments a' = repayments ex_legacy /\
    paidAmount a' = Some 300.
Proof.
  destruct (get_repayments_changes_balances_only (ex_db ex_legacy) ex_owner
              ex_id ex_legacy (lookup_singleton_eq _ _))
    as (a' & H1 & Hs & _ & _ & _ & Hr & Hp & _).
  exists a'. split; [exact H1|]. split; [exact Hs|].
  split; [exact Hr|]. now apply Hp.
Defined.

Lemma reconciled_same_ledger a :
  repayments (reconciled a) = repayments a /\
  paidAmount (reconciled a) = paidAmount a.
Proof.
  unfold reconciled, reconcile, local_totalAmount, backfill.
  destruct a as [uid loan rate st fee pd appr sched tot paid rem reps rst].
  js_simpl.
  destruct tot as [t|]; js_simpl;
    repeat match goal with
           | |- context [if ?c then _ else _] => destruct c; js_simpl
           end; split; reflexivity.
Qed.

(** X14. The remaining balance reported by a read is never negative,
    whatever is stored; the reported paid amount and ledger are the
    stored ones. *)
Theorem reported_remaining_nonnegative a :
  0 <= rd_remainingAmount (reported a) /\
  rd_paidAmount (reported a) == or_zero (paidAmount a) /\
  rd_repayments (reported a) = repayments a.
Proof.
  destruct (reconciled_same_ledger a) as [Hr Hp].
  unfold reported, reconciled, reconcile in *.
  destruct (local_totalAmount a) as [[s a1] t] eqn:E. js_simpl.
  split; [|split; [now rewrite Hp|exact Hr]].
  unfold local_remainingAmount.
  assert (Hrec : 0 <= (if negb (Qle_bool 0 (t - or_zero (paidAmount a1)))
                       then 0 else t - or_zero (paidAmount a1))).
  { destruct (Qle_bool 0 (t - or_zero (paidAmount a1))) eqn:E1; js_simpl.
    - now apply Qle_bool_iff in E1.
    - lra. }
  destruct (remainingAmount a1) as [r|]; [|exact Hrec].
  destruct (Qeq_bool r 0 || negb (Qle_bool 0 r)) eqn:E2; [exact Hrec|].
  apply orb_false_elim in E2 as [_ E2].
  apply negb_false_iff, Qle_bool_iff in E2. exact E2.
Qed.

(** X15. For a document that is not [Approved] and has no
    [totalAmount], a read saves nothing and reports the principal as
    total; when the stored [remainingAmount] is absent, zero or negative
    it reports [max(0, loanAmount - paidAmount)] as remaining. *)
Theorem reconcile_not_approved a :
  status a <> "Approved" -> falsy (totalAmount a) = true ->
  fst (reconcile a) = (false, a) /\
  rd_totalAmount (reported a) == loanAmount a /\
  (falsy (remainingAmount a) || negative (remainingAmount a) = true ->
   rd_remainingAmount (reported a) ==
     Qmax 0 (loanAmount a - or_zero (paidAmount a))).
Proof.
  intros Hs Hf. apply String.eqb_neq in Hs.
  assert (E : local_totalAmount a = (false, a, or_zero (Some (loanAmount a)))).
  { unfold local_totalAmount, backfill. rewrite Hs. js_simpl.
    destruct (totalAmount a) as [t|]; js_simpl; [now rewrite Hf|reflexivity]. }
  unfold reported, reconcile. rewrite E. js_simpl.
  split; [reflexivity|]. split; [apply or_zero_Some|].
  intros Hr. unfold local_remainingAmount.
  set (x := or_zero (Some (loanAmount a)) - or_zero (paidAmount a)).
  assert (Hx : (if negb (Qle_bool 0 x) then 0 else x) ==
               Qmax 0 (loanAmount a - or_zero (paidAmount a))).
  { assert (Hxe : x == loanAmount a - or_zero (paidAmount a))
      by (unfold x; now rewrite or_zero_Some).
    rewrite <- Hxe.
    destruct (Qle_bool 0 x) eqn:E1; js_simpl.
    - apply Qle_bool_iff in E1. now rewrite Q.max_r.
    - apply Qle_bool_false in E1. rewrite Q.max_l by lra. reflexivity. }
  destruct (remainingAmount a) as [r|]; js_simpl; [|exact Hx].
  now rewrite Hr.
Qed.

Lemma reconcile_not_approved_witness :
  fst (reconcile ex_pending) = (false, ex_pending) /\
  rd_totalAmount (reported ex_pending) == 1000 /\
  rd_remainingAmount (reported ex_pending) == 1000.
Proof.
  destruct (reconcile_not_approved ex_pending) as (H1 & H2 & H3);
    [discriminate | reflexivity |].
  split; [exact H1|]. split; [exact H2|].
  rewrite H3 by reflexivity. reflexivity.
Defined.


(** ** Payment intents and their confirmation (routes/payments.js) *)

Lemma create_repayment_intent_inv create db u id n secret :
  create_repayment_intent (Some create) db u (Some id) (Some n) =
    mkResponse 200 (ClientSecret secret) ->
  exists a,
    db !! id = Some a /\
    userId a = actorId u /\
    status a = "Approved" /\
    ~ n == 0 /\
    (forall rem, remainingAmount a = Some rem -> n <= rem * 100) /\
    create n = Some secret.
Proof.
  unfold create_repayment_intent.
  destruct (String.eqb id "" || Qeq_bool n 0) eqn:E0; [discriminate|].
  apply orb_false_elim in E0 as [_ E0]. apply Qeq_bool_false in E0.
  destruct (db !! id) as [a|]; [|discriminate].
  destruct (String.eqb (userId a) (actorId u)) eqn:Eu; js_simpl; [|discriminate].
  destruct (String.eqb (status a) "Approved") eqn:Es; js_simpl; [|discriminate].
  apply String.eqb_eq in Eu, Es.
  destruct (remainingAmount a) as [rem|] eqn:Er.
  - destruct (Qle_bool n (rem * 100)) eqn:El; js_simpl; [|discriminate].
    apply Qle_bool_iff in El.
    destruct (create n) as [sec|]; [|discriminate].
    intros [= <-]. exists a. repeat split; auto.
    intros rem' H. assert (rem' = rem) as -> by congruence. exact El.
  - destruct (create n) as [sec|]; [|discriminate].
    intros [= <-]. exists a. repeat split; auto; intros; congruence.
Qed.

(** X16. A repayment intent is only created for the owner of an
    [Approved] application, for a nonzero amount that does not exceed
    the stored [remainingAmount] times 100, and the gateway is asked for
    exactly that amount. *)
Theorem create_repayment_intent_guarded create db u id n secret :
  create_repayment_intent (Some create) db u (Some id) (Some n) =
    mkResponse 200 (ClientSecret secret) ->
  exists a,
    db !! id = Some a /\
    userId a = actorId u /\
    status a = "Approved" /\
    ~ n == 0 /\
    (forall rem, remainingAmount a = Some rem -> n <= rem * 100) /\
    create n = Some secret.
Proof. apply create_repayment_intent_inv. Qed.

Lemma ex_part_paid_intent :
  create_repayment_intent (Some (fun _ => Some "cs_1")) (ex_db ex_part_paid)
    ex_owner (Some ex_id) (Some 50000) = mkResponse 200 (ClientSecret "cs_1").
Proof.
  unfold create_repayment_intent. js_simpl.
  rewrite (lookup_singleton_eq ex_id ex_part_paid
             : ex_db ex_part_paid !! ex_id = _).
  reflexivity.
Qed.

Lemma create_repayment_intent_guarded_witness :
  exists a,
    ex_db ex_part_paid !! ex_id = Some a /\
    userId a = actorId ex_owner /\
    status a = "Approved" /\
    ~ 50000 == 0 /\
    (forall rem, remainingAmount a = Some rem -> 50000 <= rem * 100) /\
    (fun _ : Q => Some "cs_1") 50000 = Some "cs_1".
Proof.
  apply (create_repayment_intent_guarded (fun _ => Some "cs_1")
           (ex_db ex_part_paid) ex_owner ex_id 50000 "cs_1").
  exact ex_part_paid_intent.
Defined.

(** X17. A fee intent is only created for the owner of an application
    whose fee is not [Paid], and the gateway is always asked for 1000
    (cents), whatever the request says. *)
Theorem create_intent_guarded create db u id secret :
  create_intent (Some create) db u (Some id) =
    mkResponse 200 (ClientSecret secret) ->
  exists a,
    db !! id = Some a /\
    userId a = actorId u /\
    applicationFeeStatus a <> "Paid" /\
    create 1000 = Some secret.
Proof.
  unfold create_intent.
  destruct (String.eqb id ""); [discriminate|].
  destruct (db !! id) as [a|]; [|discriminate].
  destruct (String.eqb (userId a) (actorId u)) eqn:Eu; js_simpl; [|discriminate].
  destruct (String.eqb (applicationFeeStatus a) "Paid") eqn:Ef; [discriminate|].
  apply String.eqb_eq in Eu. apply String.eqb_neq in Ef.
  destruct (create 1000) as [sec|]; [|discriminate].
  intros [= <-]. exists a. auto.
Qed.

Lemma create_intent_guarded_witness :
  exists a,
    ex_db ex_pending !! ex_id = Some a /\
    userId a = actorId ex_owner /\
    applicationFeeStatus a <> "Paid" /\
    (fun _ : Q => Some "cs_2") 1000 = Some "cs_2".
Proof.
  apply (create_intent_guarded (fun _ => Some "cs_2") (ex_db ex_pending)
           ex_owner ex_id "cs_2").
  unfold create_intent. js_simpl.
  rewrite (lookup_singleton_eq ex_id ex_pending : ex_db ex_pending !! ex_id = _).
  reflexivity.
Defined.


(** X18. Once a confirmation of the application fee has been stored,
    the owner's next request for a fee intent is refused with 400
    "Application fee has already been paid". *)
Theorem fee_paid_once create db u u' now id tx amt ty a :
  db !! id = Some a ->
  valid_status (status a) = true ->
  ty <> Some "repayment" ->
  userId a = actorId u -> id <> "" ->
  create_intent (Some create)
    (fst (confirm db u' now (mkConfirmBody id tx (Some amt) ty))) u (Some id) =
  respond 400 "Application fee has already been paid".
Proof.
  intros Ha Hv Hty Hu Hid.
  unfold confirm, confirm_doc. js_simpl. rewrite Ha.
  rewrite bool_decide_eq_false_2 by exact Hty.
  rewrite save_Some by exact Hv. js_simpl.
  unfold create_intent. apply String.eqb_neq in Hid. rewrite Hid.
  rewrite lookup_insert_eq. js_simpl.
  apply String.eqb_eq in Hu. now rewrite Hu.
Qed.

Lemma fee_paid_once_witness :
  create_intent (Some (fun _ => Some "cs_3"))
    (fst (confirm (ex_db ex_pending) ex_owner 3
            (mkConfirmBody ex_id (Some "tx-fee") (Some 1000) None)))
    ex_owner (Some ex_id) =
  respond 400 "Application fee has already been paid".
Proof.
  apply (fee_paid_once (fun _ => Some "cs_3") (ex_db ex_pending) ex_owner
           ex_owner 3 ex_id (Some "tx-fee") 1000 None ex_pending
           (lookup_singleton_eq _ _) eq_refl);
    [discriminate | reflexivity | discriminate].
Defined.


(** ** The token middleware *)

Lemma split_space_free s :
  space_free s = true -> split Ascii.Space s = [s].
Proof.
  induction s as [|c rest IH]; simpl; [reflexivity|].
  intros H. apply andb_prop in H as [Hc Hrest].
  apply negb_true_iff in Hc. rewrite Hc, (IH Hrest). reflexivity.
Qed.

Lemma split_prefix w rest :
  space_free w = true ->
  split Ascii.Space (w ++ String Ascii.Space rest) = w :: split Ascii.Space rest.
Proof.
  induction w as [|c w IH]; simpl.
  - intros _. reflexivity.
  - intros H. apply andb_prop in H as [Hc Hw].
    apply negb_true_iff in Hc. rewrite Hc, (IH Hw). reflexivity.
Qed.

Lemma header_token_scheme cookie scheme tok :
  space_free scheme = true -> space_free tok = true ->
  header_token (mkCredentials cookie (Some (scheme ++ (" " ++ tok)))) = Some tok.
Proof.
  intros Hs Ht. unfold header_token. cbn [authorization].
  change (" " ++ tok) with (String Ascii.Space tok).
  rewrite (split_prefix scheme tok Hs), (split_space_free tok Ht).
  reflexivity.
Qed.

(** X20. Without a cookie token, an authorization header made of a
    scheme word, one space and a token (neither containing a space)
    yields that token, whatever the scheme word is; if the token
    verifies, the request goes on as the decoded user. *)
Theorem verifyToken_authorization_header verify cookie scheme tok :
  cookie = None \/ cookie = Some "" ->
  space_free scheme = true -> space_free tok = true -> tok <> "" ->
  request_token (mkCredentials cookie (Some (scheme ++ (" " ++ tok)))) = Some tok /\
  (forall u, verify tok = Decoded u ->
     verifyToken verify (mkCredentials cookie (Some (scheme ++ (" " ++ tok))))
     = inr u).
Proof.
  intros Hc Hs Ht Hne.
  assert (Hreq : request_token
                   (mkCredentials cookie (Some (scheme ++ (" " ++ tok)))) = Some tok).
  { unfold request_token. simpl cookie_token.
    destruct Hc as [-> | ->]; simpl; now apply header_token_scheme. }
  split; [exact Hreq|].
  intros u Hv. unfold verifyToken. rewrite Hreq.
  apply String.eqb_neq in Hne. now rewrite Hne, Hv.
Qed.

Lemma verifyToken_authorization_header_witness :
  verifyToken (fun _ => Decoded ex_owner)
    (mkCredentials None (Some ("Bearer" ++ (" " ++ "abc.def.ghi")))) =
  inr ex_owner.
Proof.
  apply (verifyToken_authorization_header (fun _ => Decoded ex_owner) None
           "Bearer" "abc.def.ghi");
    [now left | reflexivity | reflexivity | discriminate | reflexivity].
Defined.


(** X21. A non-empty cookie token is used whatever the authorization
    header says; without a cookie token, a missing header or a header
    without a space is answered 401 "Access denied. No token provided."
    and the verifier's opinion is not asked. *)
Theorem verifyToken_token_source verify t hdr :
  (t <> "" -> request_token (mkCredentials (Some t) hdr) = Some t) /\
  ((hdr = None \/ exists v, hdr = Some v /\ space_free v = true) ->
   verifyToken verify (mkCredentials None hdr) =
     inl (mkDenial 401 "Access denied. No token provided." None) /\
   verifyToken verify (mkCredentials (Some "") hdr) =
     inl (mkDenial 401 "Access denied. No token provided." None)).
Proof.
  split.
  - intros Hne. unfold request_token. simpl.
    apply String.eqb_neq in Hne. now rewrite Hne.
  - intros H.
    assert (Hh : forall c, header_token (mkCredentials c hdr) = None).
    { intros c. unfold header_token. simpl.
      destruct H as [-> | (v & -> & Hv)]; [reflexivity|].
      now rewrite (split_space_free v Hv). }
    unfold verifyToken, request_token. simpl.
    rewrite !Hh. split; reflexivity.
Qed.

Lemma verifyToken_token_source_witness :
  request_token (mkCredentials (Some "cookie.tok") (Some "Bearer other.tok")) =
    Some "cookie.tok" /\
  verifyToken (fun _ => Decoded ex_admin) (mkCredentials None (Some "Bearer")) =
    inl (mkDenial 401 "Access denied. No token provided." None).
Proof.
  split.
  - apply (verifyToken_token_source (fun _ => Decoded ex_admin) "cookie.tok").
    discriminate.
  - apply (verifyToken_token_source (fun _ => Decoded ex_admin) ""
             (Some "Bearer")).
    right. exists "Bearer". split; reflexivity.
Defined.


(** X22. The middleware lets a request through only as the user that
    the verifier decoded from the non-empty request token, and every
    refusal it sends is a 401. *)
Theorem verifyToken_sound verify h :
  (forall u, verifyToken verify h = inr u ->
     exists tok, request_token h = Some tok /\ tok <> "" /\
                 verify tok = Decoded u) /\
  (forall d, verifyToken verify h = inl d -> d_status d = 401%Z).
Proof.
  unfold verifyToken. split.
  - intros u. destruct (request_token h) as [tok|]; [|discriminate].
    destruct (String.eqb tok "") eqn:E; [discriminate|].
    apply String.eqb_neq in E.
    destruct (verify tok) as [u'| | |] eqn:Ev; try discriminate.
    intros [= <-]. exists tok. auto.
  - intros d. destruct (request_token h) as [tok|]; [|now intros [= <-]].
    destruct (String.eqb tok ""); [now intros [= <-]|].
    destruct (verify tok); try discriminate; now intros [= <-].
Qed.

Lemma verifyToken_sound_witness :
  exists tok,
    request_token (mkCredentials (Some "cookie.tok") None) = Some tok /\
    tok <> "" /\
    (fun _ : string => Decoded ex_owner) tok = Decoded ex_owner.
Proof.
  apply (verifyToken_sound (fun _ => Decoded ex_owner)
           (mkCredentials (Some "cookie.tok") None)).
  reflexivity.
Defined.



(** ** Sequences of requests: the theorems *)

(** X1. The ledger is append-only and the owner is fixed: over any
    sequence of requests, the [repayments] a document held at the start
    are a prefix of those it holds at the end, and its [userId] is
    unchanged. *)
Theorem ledger_append_only db rqs id a a' :
  db !! id = Some a -> run db rqs !! id = Some a' ->
  repayments a `prefix_of` repayments a' /\ userId a' = userId a.
Proof.
  intros Ha Hrun.
  destruct (run_ledger rqs db id a a' Ha Hrun) as (Hu & Hp). auto.
Qed.

Lemma ledger_append_only_witness :
  exists a',
    run (ex_db ex_approved) [PostRepayment ex_owner 7 ex_id ex_repay_600]
      !! ex_id = Some a' /\
    repayments ex_approved `prefix_of` repayments a' /\
    userId a' = userId ex_approved.
Proof.
  destruct ex_run_600 as [a' Hrun]. exists a'. split; [exact Hrun|].
  exact (ledger_append_only _ _ _ _ _ (lookup_singleton_eq _ _) Hrun).
Defined.

(** X3. Requests that address other documents leave a document (and
    the absence of a document) as it was. *)
Theorem requests_isolated db rqs id :
  Forall (fun rq => target rq <> id) rqs -> run db rqs !! id = db !! id.
Proof.
  revert db. induction rqs as [|rq rest IH]; intros db H; simpl.
  - reflexivity.
  - inversion H as [|? ? Hrq Hrest]; subst.
    rewrite (IH _ Hrest). apply handle_frame. congruence.
Qed.

Lemma requests_isolated_witness :
  run (<["app-2" := ex_pending]> (ex_db ex_approved))
    [PostRepayment ex_owner 7 ex_id ex_repay_600;
     Confirm ex_stranger 8 ex_confirm;
     DeleteApplication ex_owner ex_id] !! "app-2" =
  <["app-2" := ex_pending]> (ex_db ex_approved) !! "app-2".
Proof.
  apply requests_isolated.
  repeat constructor; discriminate.
Defined.

(** X4. No request of these routes creates a document: an id that is
    absent stays absent over any sequence of requests, and so does an id
    whose document was cancelled. *)
Theorem absent_stays_absent db rqs id :
  (db !! id = None -> run db rqs !! id = None) /\
  (forall u, code (snd (delete_application db u id)) = 200%Z ->
     run (fst (delete_application db u id)) rqs !! id = None).
Proof.
  split.
  - apply run_no_create.
  - intros u H. apply run_no_create. revert H. unfold delete_application.
    destruct (db !! id) as [a|] eqn:Ea; [|discriminate].
    destruct (negb _); [discriminate|]. destruct (negb _); [discriminate|].
    intros _. apply lookup_delete_eq.
Qed.

Lemma absent_stays_absent_witness :
  run (ex_db ex_approved) [Confirm ex_owner 8 (mkConfirmBody "app-2" None (Some 500) None)]
    !! "app-2" = None /\
  run (fst (delete_application (ex_db ex_pending) ex_owner ex_id))
    [PatchStatus ex_admin 9 ex_id "Approved"] !! ex_id = None.
Proof.
  split.
  - apply (absent_stays_absent (ex_db ex_approved)).
    apply lookup_singleton_ne. discriminate.
  - apply (absent_stays_absent (ex_db ex_pending)). reflexivity.
Defined.

(** X5. If every stored status is one of the schema's three, then
    after any sequence of requests every stored status is [Pending],
    [Approved] or [Rejected]. *)
Theorem status_always_in_enum db rqs id a :
  stored_valid db -> run db rqs !! id = Some a ->
  status a = "Pending" \/ status a = "Approved" \/ status a = "Rejected".
Proof.
  intros Hdb Hrun.
  pose proof (run_stored_valid rqs db Hdb id a Hrun) as Hv.
  unfold valid_status, status_enum in Hv.
  apply bool_decide_eq_true_1 in Hv.
  repeat (apply elem_of_cons in Hv as [Hv|Hv]; [auto|]).
  now apply elem_of_nil in Hv.
Qed.

Lemma ex_run_reject :
  run (ex_db ex_pending) [PatchStatus ex_admin 9 ex_id "Rejected"] !! ex_id =
  Some ex_rejected.
Proof.
  cbn [run handle]. unfold patch_status.
  rewrite (lookup_singleton_eq ex_id ex_pending : ex_db ex_pending !! ex_id = _).
  apply lookup_insert_eq.
Qed.

Lemma status_always_in_enum_witness :
  status ex_rejected = "Pending" \/ status ex_rejected = "Approved" \/
  status ex_rejected = "Rejected".
Proof.
  apply (status_always_in_enum (ex_db ex_pending)
           [PatchStatus ex_admin 9 ex_id "Rejected"] ex_id ex_rejected).
  - apply ex_db_valid. reflexivity.
  - exact ex_run_reject.
Defined.
